(** * tk-maya-quickreview: the quick review action

    A shallow embedding of [python/app/action.py] (and of the widget
    constructors of [python/app/widgets.py] it uses).

    The plugin is glue code over a host: the file system ([os]), the
    scene ([maya.cmds]), the tracking service ([shotgun]), the toolkit
    ([sgtk]) and the GUI.  None of it is code of this repository, so the
    host is a parameter of the development ([Host]); every theorem holds
    for every host.  What the Python code itself does (the order of the
    calls, what is caught, what is stored on the action object, what is
    returned) is written out in a state, exception and event-log monad.

    Layout: Python values and exceptions; the [Quicktime] record; events
    and how to read a log; the host; the program ([Section Program]); a
    concrete POSIX host ([Module Posix]); the properties, for every host
    ([Section Properties]); the properties on concrete runs
    ([Section Runs]). *)

From Stdlib Require QArith_base.
From stdpp Require Import gmap strings list fin_maps pretty sorting.

Set Warnings "-register-all,-clear-no-such-hyp".
Local Open Scope string_scope.
Local Open Scope Z_scope.
Local Open Scope list_scope.

(** ** Python values *)

(** The values that flow through the payload dictionary and through
    [and]-chains. *)
Inductive PyVal :=
  | PyNone
  | PyBool (b : bool)
  | PyInt (z : Z)
  | PyStr (s : string)
  | PyDict (d : gmap string PyVal).

(** Python truth value testing. *)
Definition truthy (v : PyVal) : bool :=
  match v with
  | PyNone => false
  | PyBool b => b
  | PyInt z => negb (z =? 0)
  | PyStr s => negb (String.eqb s "")
  | PyDict d => negb (bool_decide (d = ∅))
  end.

(** [None] or a value, as a Python value. *)
Definition of_opt {A} (f : A → PyVal) (o : option A) : PyVal :=
  match o with Some a => f a | None => PyNone end.

(** [str(x)] where [x] is [None] or a string, as [str.format] renders it. *)
Definition str_opt (o : option string) : string :=
  match o with Some s => s | None => "None" end.

(** [int(x)] of a finite float: truncation towards zero.  A finite float
    is the rational [n / d]. *)
Definition py_int (q : QArith_base.Q) : Z :=
  Z.quot (QArith_base.Qnum q) (Z.pos (QArith_base.Qden q)).

(** ** Exceptions *)

Inductive ExcClass :=
  | OSError | TypeError | AttributeError | KeyError | OtherException.

(** An exception instance: its class and [str(e)]. *)
Record PyExc := mkExc { exc_class : ExcClass; exc_str : string }.

(** [except os.error]: [os.error] is an alias of [OSError]. *)
Definition is_os_error (e : PyExc) : bool :=
  match exc_class e with OSError => true | _ => false end.

(** [except Exception]: every class modelled here derives from it. *)
Definition is_Exception (e : PyExc) : bool := true.

Inductive Result (A : Type) :=
  | Ok (a : A)
  | Raise (e : PyExc).
Arguments Ok {A} a.
Arguments Raise {A} e.

(** ** The record of a capture attempt (action.py, lines 30-38) *)

Record Quicktime := mkQuicktime {
  success : bool;
  error_msg : option string;
  frame_count : option Z;
  frame_range : option string;
  first_frame : option Z;
  last_frame : option Z;
  path : option string;
}.

(** ** Widgets and events *)

(** The widget classes of widgets.py with their constructor arguments.
    The accept and reject callbacks of the confirmation widget are the
    bound methods [_upload] and [_rejected]; see [click]. *)
Inductive Widget :=
  | QuickReviewConfirmWidget (quicktime_path : string)
  | ErrorWidget (summary message : string)
  | QuickReviewSuccessWidget (context : PyVal).

(** Keyword arguments of [cmds.playblast]. *)
Record Playblast := mkPlayblast {
  compression : string;
  endTime : Z;
  filename : string;
  forceOverwrite : bool;
  format : string;
  offScreen : bool;
  startTime : Z;
  viewer : bool;
}.

(** What the code asks of the host, in program order. *)
Inductive Event :=
  | EvShowBusy (title msg : string)
  | EvClearBusy
  | EvMakedirs (dir : string)
  | EvPlayblast (args : Playblast)
  | EvRemove (p : string)
  | EvLogError (msg : string)
  | EvLogInfo (msg : string)
  | EvShowDialog (title : string) (w : Widget) (id : nat)
  | EvClose (id : nat)
  | EvCreate (entity_type : string) (data : gmap string PyVal)
  | EvUpload (entity_type : string) (id : PyVal) (p : PyVal) (field : string)
  | EvThreadStart
  | EvThreadDied (e : PyExc)
  | EvMainThread (version : gmap string PyVal).

(** *** Reading an event log *)

Definition is_playblast (e : Event) : bool :=
  match e with EvPlayblast _ => true | _ => false end.

Definition is_create (e : Event) : bool :=
  match e with EvCreate _ _ => true | _ => false end.

Definition is_upload (e : Event) : bool :=
  match e with EvUpload _ _ _ _ => true | _ => false end.

Definition is_main_thread (e : Event) : bool :=
  match e with EvMainThread _ => true | _ => false end.

Definition is_thread_start (e : Event) : bool :=
  match e with EvThreadStart => true | _ => false end.

Definition is_close (e : Event) : bool :=
  match e with EvClose _ => true | _ => false end.

Definition is_remove (e : Event) : bool :=
  match e with EvRemove _ => true | _ => false end.

Definition is_confirm_dialog (e : Event) : bool :=
  match e with
  | EvShowDialog _ (QuickReviewConfirmWidget _) _ => true
  | _ => false
  end.


(** How many events of [log] satisfy [P]. *)
Definition count (P : Event → bool) (log : list Event) : nat :=
  length (List.filter P log).

(** The steps of the action. *)
Inductive Step := Capture | Confirm | Upload | ShowResult.

Definition step_index (st : Step) : nat :=
  match st with
  | Capture => 0
  | Confirm => 1
  | Upload => 2
  | ShowResult => 3
  end.

(** The step an event belongs to, if it is one of a step. *)
Definition step_of (e : Event) : option Step :=
  match e with
  | EvPlayblast _ => Some Capture
  | EvShowDialog _ (QuickReviewConfirmWidget _) _ => Some Confirm
  | EvThreadStart | EvCreate _ _ | EvUpload _ _ _ _ => Some Upload
  | EvShowDialog _ (QuickReviewSuccessWidget _) _ => Some ShowResult
  | _ => None
  end.

(** The steps of a log, as indices, in log order. *)
Definition steps (log : list Event) : list nat :=
  omap (λ e, match step_of e with
             | Some st => Some (step_index st)
             | None => None
             end) log.

(** Whether every event of [log] that satisfies [Q] comes after one
    that satisfies [P]; [seen]: such a one came before [log]. *)
Fixpoint preceded_by (P Q : Event → bool) (seen : bool) (log : list Event)
    : bool :=
  match log with
  | [] => true
  | e :: log' =>
      (if Q e then seen else true) && preceded_by P Q (seen || P e) log'
  end.

(** Every event of [log] that satisfies [Q] has an event that satisfies
    [P] somewhere before it. *)
Definition Precedes (P Q : Event → bool) (log : list Event) : Prop :=
  ∀ i e, log !! i = Some e → Q e = true →
         ∃ j e', (j < i)%nat ∧ log !! j = Some e' ∧ P e' = true.

(** ** The host

    What the program calls and does not define.  The calls whose failure
    the program handles ([os.makedirs], [os.remove], [cmds.playblast])
    and the calls that leave the machine ([shotgun.create],
    [shotgun.upload], [context.from_entity]) may raise; the [os]
    functions raise [os.error] only.  Path functions, queries of the
    scene and of the context, logging, the busy indicator and the
    dialogs return. *)

Class Host := {
  (** everything outside the process: disk, scene, clock, server, and
      what the user typed *)
  Ext : Type;
  (** [os.path] *)
  os_path_exists : string → Ext → bool;
  os_path_dirname : string → string;
  os_path_basename : string → string;
  os_path_splitext : string → string * string;
  (** [os.makedirs], [os.remove]: [Some msg] when [os.error] is raised *)
  host_makedirs : string → Ext → option string * Ext;
  host_remove : string → Ext → option string * Ext;
  (** [cmds.playbackOptions(query=True, minTime=True)] and [maxTime] *)
  playback_minTime : Ext → QArith_base.Q;
  playback_maxTime : Ext → QArith_base.Q;
  (** [cmds.playblast]: [Some e] when it raises [e] *)
  host_playblast : Playblast → Ext → option PyExc * Ext;
  (** [app.get_template], [context.as_template_fields],
      [template.apply_fields], and the clock formatted by
      [strftime("%Y-%m-%d_%H-%M")] *)
  Template : Type;
  get_template : string → Template;
  as_template_fields : Template → Ext → gmap string PyVal;
  apply_fields : Template → gmap string PyVal → string;
  now_strftime : Ext → string;
  (** [sgtk.util.get_current_user] and the fields of [app.context] *)
  get_current_user : Ext → PyVal;
  context_entity : Ext → PyVal;
  context_project : Ext → PyVal;
  context_task : Ext → PyVal;
  (** [QuickReviewConfirmWidget.notes] of the widget with that id *)
  widget_notes : nat → Ext → string;
  (** ["%s" % data] *)
  str_dict : gmap string PyVal → string;
  (** [app.shotgun.create], [app.shotgun.upload] *)
  host_create : string → gmap string PyVal → Ext
                → (PyExc + gmap string PyVal) * Ext;
  host_upload : string → PyVal → PyVal → string → Ext → option PyExc * Ext;
  (** [sgtk.context.from_entity] *)
  context_from_entity : string → PyVal → Ext → PyExc + PyVal;
}.

(** ** The action object and the program state *)

(** [QuickReviewAction]: the attributes [__init__] sets, and
    [_confirm_widget], which [execute] adds ([None]: attribute absent). *)
Record QuickReviewAction := mkAction {
  _name : string;
  _quicktime : option Quicktime;
  _confirm_widget : option nat;
}.

(** [QuickReviewAction.__init__] (lines 44-51) *)
Definition __init__ : QuickReviewAction :=
  {| _name := "Quick Review"; _quicktime := None; _confirm_widget := None |}.

Section Program.
Context `{host : Host}.

Record St := mkSt {
  ext : Ext;
  self : QuickReviewAction;
  (** number of dialogs shown so far; the next dialog gets this id *)
  dialogs : nat;
}.

(** A computation reads and updates the state, returns or raises, and
    appends to the event log. *)
Definition M (A : Type) : Type := St → Result A * St * list Event.

Definition ret {A} (a : A) : M A := λ s, (Ok a, s, []).

Definition raise {A} (e : PyExc) : M A := λ s, (Raise e, s, []).

Definition bind {A B} (m : M A) (k : A → M B) : M B :=
  λ s, match m s with
       | (Ok a, s1, ev1) =>
           let '(r, s2, ev2) := k a s1 in (r, s2, ev1 ++ ev2)
       | (Raise e, s1, ev1) => (Raise e, s1, ev1)
       end.

(** [try: body / except <catches> as e: handler e] *)
Definition try_except {A} (body : M A) (catches : PyExc → bool)
    (handler : PyExc → M A) : M A :=
  λ s, match body s with
       | (Raise e, s1, ev1) =>
           if catches e
           then let '(r, s2, ev2) := handler e s1 in (r, s2, ev1 ++ ev2)
           else (Raise e, s1, ev1)
       | done => done
       end.

(** [with cm: body] for a context manager whose [__exit__] returns
    [None]: [__exit__] runs however the body ends, and an exception of
    the body is raised again after it. *)
Definition with_ {A} (enter exit : M unit) (body : M A) : M A :=
  λ s, match enter s with
       | (Ok _, s1, ev1) =>
           let '(r, s2, ev2) := body s1 in
           match exit s2 with
           | (Ok _, s3, ev3) => (r, s3, ev1 ++ ev2 ++ ev3)
           | (Raise e, s3, ev3) => (Raise e, s3, ev1 ++ ev2 ++ ev3)
           end
       | (Raise e, s1, ev1) => (Raise e, s1, ev1)
       end.

#[global] Instance M_ret : MRet M := @ret.
#[global] Instance M_bind : MBind M := λ A B k m, bind m k.

(** [try: body / except <catches> as e: handler e / else: orelse];
    an exception of [orelse] is not caught. *)
Definition try_except_else {A} (body : M unit) (catches : PyExc → bool)
    (handler : PyExc → M A) (orelse : M A) : M A :=
  λ s, match body s with
       | (Raise e, s1, ev1) =>
           if catches e
           then let '(r, s2, ev2) := handler e s1 in (r, s2, ev1 ++ ev2)
           else (Raise e, s1, ev1)
       | (Ok _, s1, ev1) =>
           let '(r, s2, ev2) := orelse s1 in (r, s2, ev1 ++ ev2)
       end.

(** *** State access and host calls *)

Definition emit (e : Event) : M unit := λ s, (Ok (), s, [e]).

Definition get_ext : M Ext := λ s, (Ok (ext s), s, []).

Definition get_self : M QuickReviewAction := λ s, (Ok (self s), s, []).

Definition set_self (a : QuickReviewAction) : M unit :=
  λ s, (Ok (), mkSt (ext s) a (dialogs s), []).

(** A host call that may change the outside world. *)
Definition host_call {A} (f : Ext → A * Ext) : M A :=
  λ s, let '(a, x) := f (ext s) in (Ok a, mkSt x (self s) (dialogs s), []).

(** [os.makedirs(d)] *)
Definition os_makedirs (d : string) : M unit :=
  emit (EvMakedirs d);;
  r ← host_call (host_makedirs d);
  match r with
  | None => ret ()
  | Some msg => raise (mkExc OSError msg)
  end.

(** [os.remove(p)]; a [None] argument is a [TypeError] before the file
    system is touched. *)
Definition os_remove (p : option string) : M unit :=
  match p with
  | None => raise (mkExc TypeError "coercing to Unicode: need string or buffer, NoneType found")
  | Some p =>
      emit (EvRemove p);;
      r ← host_call (host_remove p);
      match r with
      | None => ret ()
      | Some msg => raise (mkExc OSError msg)
      end
  end.

(** [os.path.exists(p)]; a [None] argument is a [TypeError]. *)
Definition os_path_exists_arg (p : option string) : M bool :=
  match p with
  | None => raise (mkExc TypeError "coercing to Unicode: need string or buffer, NoneType found")
  | Some p => x ← get_ext; ret (os_path_exists p x)
  end.

(** [os.path.basename(p)]; [None] has no string methods. *)
Definition os_path_basename_arg (p : option string) : M string :=
  match p with
  | None => raise (mkExc AttributeError "'NoneType' object has no attribute 'rfind'")
  | Some p => ret (os_path_basename p)
  end.

(** [cmds.playblast(...)] *)
Definition cmds_playblast (args : Playblast) : M unit :=
  emit (EvPlayblast args);;
  r ← host_call (host_playblast args);
  match r with
  | None => ret ()
  | Some e => raise e
  end.

(** [app.log_error], [app.log_info] *)
Definition log_error (msg : string) : M unit := emit (EvLogError msg).
Definition log_info (msg : string) : M unit := emit (EvLogInfo msg).

(** [app.engine.show_dialog(title, app, widget_class, *args)]: builds
    the widget, shows it and returns it. *)
Definition show_dialog (title : string) (w : Widget) : M nat :=
  λ s, (Ok (dialogs s), mkSt (ext s) (self s) (S (dialogs s)),
        [EvShowDialog title w (dialogs s)]).

Definition show_global_busy (title msg : string) : M unit :=
  emit (EvShowBusy title msg).
Definition clear_global_busy : M unit := emit EvClearBusy.

(** [app.shotgun.create(entity_type, data)] *)
Definition shotgun_create (entity_type : string) (data : gmap string PyVal)
    : M (gmap string PyVal) :=
  emit (EvCreate entity_type data);;
  r ← host_call (host_create entity_type data);
  match r with
  | inl e => raise e
  | inr version => ret version
  end.

(** [app.shotgun.upload(entity_type, id, path, field)] *)
Definition shotgun_upload (entity_type : string) (id p : PyVal)
    (field : string) : M unit :=
  emit (EvUpload entity_type id p field);;
  r ← host_call (host_upload entity_type id p field);
  match r with
  | None => ret ()
  | Some e => raise e
  end.

(** [d[k]] *)
Definition getitem (d : gmap string PyVal) (k : string) : M PyVal :=
  match d !! k with
  | Some v => ret v
  | None => raise (mkExc KeyError k)
  end.

(** [app.engine.execute_in_main_thread(callback, arg)] *)
Definition execute_in_main_thread (callback : gmap string PyVal → M unit)
    (arg : gmap string PyVal) : M unit :=
  emit (EvMainThread arg);; callback arg.

(** *** Attributes of the action *)

(** The [name] property (lines 96-101). *)
Definition name : M string := a ← get_self; ret (_name a).

(** The [quicktime] property (lines 104-109). *)
Definition quicktime : M (option Quicktime) := a ← get_self; ret (_quicktime a).

(** The [quicktime] setter (lines 112-117). *)
Definition set_quicktime (info : option Quicktime) : M unit :=
  a ← get_self;
  set_self {| _name := _name a; _quicktime := info;
              _confirm_widget := _confirm_widget a |}.

(** [self.quicktime.<field>]: [None] has no such attribute. *)
Definition quicktime_attr {A} (field : Quicktime → A) : M A :=
  q ← quicktime;
  match q with
  | Some qt => ret (field qt)
  | None => raise (mkExc AttributeError "'NoneType' object has no attribute")
  end.

(** [self._confirm_widget]: absent until [execute] assigns it. *)
Definition confirm_widget : M nat :=
  a ← get_self;
  match _confirm_widget a with
  | Some w => ret w
  | None => raise (mkExc AttributeError "'QuickReviewAction' object has no attribute '_confirm_widget'")
  end.

Definition set_confirm_widget (w : nat) : M unit :=
  a ← get_self;
  set_self {| _name := _name a; _quicktime := _quicktime a;
              _confirm_widget := Some w |}.

(** [widget.close()] *)
Definition close (w : nat) : M unit := emit (EvClose w).

(** ** [ActionBusy] (lines 230-255) *)

Record ActionBusy := mkActionBusy { _title : string; _msg : string }.

Definition __enter__ (cm : ActionBusy) : M unit :=
  show_global_busy (_title cm) (_msg cm).

Definition __exit__ (cm : ActionBusy) : M unit := clear_global_busy.

(** [with cm: body] for an [ActionBusy] *)
Definition with_busy {A} (cm : ActionBusy) (body : M A) : M A :=
  with_ (__enter__ cm) (__exit__ cm) body.

(** [QuickReviewAction.busy] (lines 54-59) *)
Definition busy (message : string) : M ActionBusy :=
  n ← name; ret (mkActionBusy n message).

(** Whether the global busy indicator is shown after the events of
    [log], given whether it was shown [before]. *)
Definition busy_shown (before : bool) (log : list Event) : bool :=
  fold_left (λ b e, match e with
                    | EvShowBusy _ _ => true
                    | EvClearBusy => false
                    | _ => b
                    end) log before.

(** ** [_generate_quicktime] (lines 293-346) *)

(** The newline of ["\n"]. *)
Definition nl : string := String (Ascii.ascii_of_nat 10) "".

Definition _generate_quicktime (quicktime_path : string) : M Quicktime :=
  let quicktime_dir := os_path_dirname quicktime_path in
  x ← get_ext;
  (* [Some record]: the early return of lines 304-312 *)
  early ← (if negb (os_path_exists quicktime_dir x)
           then try_except (os_makedirs quicktime_dir;; ret None) is_os_error
                  (λ e, ret (Some {| success := false;
                                     error_msg := Some (exc_str e);
                                     frame_count := None;
                                     frame_range := None;
                                     first_frame := None;
                                     last_frame := None;
                                     path := None |}))
           else ret None);
  match early with
  | Some record => ret record
  | None =>
      x ← get_ext;
      let first_frame := py_int (playback_minTime x) in
      let last_frame := py_int (playback_maxTime x) in
      outcome ← try_except
                  (cmds_playblast {| compression := "jpeg";
                                     endTime := last_frame;
                                     filename := quicktime_path;
                                     forceOverwrite := true;
                                     format := "movie";
                                     offScreen := true;
                                     startTime := first_frame;
                                     viewer := false |};;
                   ret (None, true))
                  is_Exception
                  (λ e, ret (Some (exc_str e), false));
      let '(error_msg, success) := outcome in
      ret {| success := success;
             error_msg := error_msg;
             frame_count := Some (last_frame - first_frame + 1);
             frame_range := Some (pretty first_frame +:+ "-" +:+ pretty last_frame);
             first_frame := Some first_frame;
             last_frame := Some last_frame;
             path := Some quicktime_path |}
  end.

(** ** [QuickReviewAction] methods *)

(** [_get_quicktime_path] (lines 140-159) *)
Definition _get_quicktime_path : M string :=
  let quicktime_template := get_template "quicktime_template" in
  x ← get_ext;
  let fields := as_template_fields quicktime_template x in
  let fields := <["timestamp" := PyStr (now_strftime x)]> fields in
  ret (apply_fields quicktime_template fields).

(** [a and b]: [b] is evaluated only when [a] is truthy, and the result
    is one of the operands. *)
Definition py_and (a : PyVal) (b : M PyVal) : M PyVal :=
  if truthy a then b else ret a.

(** [_validate_quicktime] (lines 221-227) *)
Definition _validate_quicktime : M PyVal :=
  s ← quicktime_attr success;
  py_and (PyBool s)
    (p ← quicktime_attr path;
     py_and (of_opt PyStr p)
       (p ← quicktime_attr path;
        b ← os_path_exists_arg p;
        ret (PyBool b))).

(** The [with] block of [execute] (lines 66-68); its value is the
    local [quicktime_path], which the rest of [execute] reads. *)
Definition generate : M string :=
  cm ← busy "<br>Generating quicktime...";
  with_busy cm
    (quicktime_path ← _get_quicktime_path;
     record ← _generate_quicktime quicktime_path;
     set_quicktime (Some record);;
     ret quicktime_path).

(** The locals [summary] and [message] of [execute] (lines 72-76). *)
Definition summary (n : string) : string :=
  "<b>" +:+ n +:+ "</b> encountered an <b>Error</b>!".

Definition message (em : option string) : string :=
  "Oops! Unable to generate the quicktime." +:+ nl +:+ nl +:+
  "Error: " +:+ str_opt em +:+ nl +:+ nl +:+
  "Please contact your pipeline team for assistance.".

(** [execute] (lines 62-85) *)
Definition execute : M unit :=
  quicktime_path ← generate;
  valid ← _validate_quicktime;
  if negb (truthy valid) then
    n ← name;
    em ← quicktime_attr error_msg;
    log_error (message em);;
    n' ← name;
    show_dialog n' (ErrorWidget (summary n) (message em));;
    ret ()
  else
    n ← name;
    w ← show_dialog n (QuickReviewConfirmWidget quicktime_path);
    set_confirm_widget w.

(** [_cleanup] (lines 120-137).  A namedtuple of seven fields is never
    falsy, so [not self.quicktime] holds exactly for [None]. *)
Definition _cleanup : M unit :=
  q ← quicktime;
  match q with
  | None => ret ()
  | Some _ =>
      path ← quicktime_attr path;
      try_except_else (os_remove path) is_os_error
        (λ e, log_error ("Unable to remove unused quicktime: " +:+ str_opt path))
        (log_info ("Removed unused quicktime: " +:+ str_opt path))
  end.

(** [_rejected] (lines 162-168) *)
Definition _rejected : M unit :=
  _cleanup;;
  w ← confirm_widget;
  close w.

(** [_upload_complete] (lines 208-218) *)
Definition _upload_complete (version : gmap string PyVal) : M unit :=
  id ← getitem version "id";
  x ← get_ext;
  match context_from_entity "Version" id x with
  | inl e => raise e
  | inr version_context =>
      n ← name;
      show_dialog n (QuickReviewSuccessWidget version_context);;
      ret ()
  end.

(** ** [UploadThread] (lines 259-290) *)

Record UploadThread := mkUploadThread {
  _data : gmap string PyVal;
  _callback : gmap string PyVal → M unit;
}.

(** [UploadThread.run] (lines 274-290) *)
Definition run (t : UploadThread) : M unit :=
  log_info ("Creating Shotgun version: " +:+ str_dict (_data t));;
  version ← shotgun_create "Version" (_data t);
  quicktime_path ← getitem (_data t) "sg_path_to_movie";
  log_info "Uploading quicktime to Shotgun...";;
  id ← getitem version "id";
  shotgun_upload "Version" id quicktime_path "sg_uploaded_movie";;
  execute_in_main_thread (_callback t) version.

(** [threading.Thread.start]: [run] executes on the new thread; an
    exception that escapes [run] ends that thread and reaches nobody.
    The caller has nothing left to do after [start] (it is the last
    statement of [_upload]), so the worker's events are logged after
    [EvThreadStart]. *)
Definition start (t : UploadThread) : M unit :=
  emit EvThreadStart;;
  try_except (run t) is_Exception (λ e, emit (EvThreadDied e)).

(** The payload of lines 185-201. *)
Definition version_data (record : Quicktime) (code : string)
    (current_user : PyVal) (notes : string) (x : Ext) : gmap string PyVal :=
  let data : gmap string PyVal :=
    <["code" := PyStr code]>
    (<["user" := current_user]>
    (<["entity" := context_entity x]>
    (<["project" := context_project x]>
    (<["created_by" := current_user]>
    (<["description" := PyStr notes]>
    (<["frame_count" := of_opt PyInt (frame_count record)]>
    (<["frame_range" := of_opt PyStr (frame_range record)]>
    (<["sg_first_frame" := of_opt PyInt (first_frame record)]>
    (<["sg_last_frame" := of_opt PyInt (last_frame record)]>
    (<["sg_path_to_movie" := of_opt PyStr (path record)]> ∅)))))))))) in
  if truthy (context_task x)
  then <["sg_task" := context_task x]> data
  else data.

(** [_upload] (lines 171-205) *)
Definition _upload : M unit :=
  w ← confirm_widget;
  close w;;
  cm ← busy "<br>Uploading quicktime for newly created version...";
  data ← with_busy cm
    (w ← confirm_widget;
     x ← get_ext;
     let notes := widget_notes w x in
     let current_user := get_current_user x in
     p ← quicktime_attr path;
     base ← os_path_basename_arg p;
     record ← quicktime_attr id;
     ret (version_data record (os_path_splitext base).1 current_user notes x));
  let upload_callback := λ version, _upload_complete version in
  let upload_thread := mkUploadThread data upload_callback in
  start upload_thread.

(** ** The user *)

Inductive Click := Submit | Cancel.

(** widgets.py, lines 43-44: the buttons of the confirmation widget call
    the callbacks given to its constructor, which [execute] sets to
    [self._upload] and [self._rejected] (action.py, lines 84-85). *)
Definition click (c : Click) : M unit :=
  match c with
  | Submit => _upload
  | Cancel => _rejected
  end.

(** One use of the action: [execute], then the outside world moves on
    ([world]), then the user clicks a button of the confirmation dialog
    if one was shown, or leaves it alone ([None]).  An exception that
    escapes a button callback ends the callback only. *)
Definition session (world : Ext → Ext) (user : option Click) : M unit :=
  λ s, match execute s with
       | (Ok _, s1, ev1) =>
           match user with
           | Some c =>
               if existsb is_confirm_dialog ev1
               then let '(_, s2, ev2) :=
                      click c (mkSt (world (ext s1)) (self s1) (dialogs s1)) in
                    (Ok (), s2, ev1 ++ ev2)
               else (Ok (), s1, ev1)
           | None => (Ok (), s1, ev1)
           end
       | failed => failed
       end.

(** ** Vocabulary of the properties *)

(** The truth value the [and]-chain of [_validate_quicktime] stands for:
    [success] is true, [path] is a non-empty string, and the host says
    that path exists. *)
Definition valid (record : Quicktime) (x : Ext) : bool :=
  success record
  && match path record with
     | Some p => negb (String.eqb p "") && os_path_exists p x
     | None => false
     end.

(** A computation that leaves the action object as it found it. *)
Definition keeps_self {A} (m : M A) : Prop :=
  ∀ s, self (m s).1.2 = self s.

(** The record of a capture attempt for [quicktime_path], with the
    events of the attempt. *)
Inductive Captured (quicktime_path : string)
    : Quicktime → list Event → Prop :=
  | no_directory msg :
      Captured quicktime_path
        {| success := false; error_msg := Some msg;
           frame_count := None; frame_range := None;
           first_frame := None; last_frame := None; path := None |}
        [EvMakedirs (os_path_dirname quicktime_path)]
  | played made ok em first last :
      made = [] ∨ made = [EvMakedirs (os_path_dirname quicktime_path)] →
      (ok = true ↔ em = None) →
      Captured quicktime_path
        {| success := ok; error_msg := em;
           frame_count := Some (last - first + 1);
           frame_range := Some (pretty first +:+ "-" +:+ pretty last);
           first_frame := Some first; last_frame := Some last;
           path := Some quicktime_path |}
        (made ++ [EvPlayblast {| compression := "jpeg";
                                 endTime := last;
                                 filename := quicktime_path;
                                 forceOverwrite := true;
                                 format := "movie";
                                 offScreen := true;
                                 startTime := first;
                                 viewer := false |}]).

(** The events of a worker started with payload [data], whose movie
    path is [p], and with the callback of [_upload]; [n] is the name of
    the action and [k] the id the next dialog gets. *)
Inductive Worked (data : gmap string PyVal) (p : PyVal) (n : string)
    (k : nat) : list Event → Prop :=
  | create_raised e :
      Worked data p n k
        [EvThreadStart;
         EvLogInfo ("Creating Shotgun version: " +:+ str_dict data);
         EvCreate "Version" data;
         EvThreadDied e]
  | version_without_id :
      Worked data p n k
        [EvThreadStart;
         EvLogInfo ("Creating Shotgun version: " +:+ str_dict data);
         EvCreate "Version" data;
         EvLogInfo "Uploading quicktime to Shotgun...";
         EvThreadDied (mkExc KeyError "id")]
  | upload_raised id e :
      Worked data p n k
        [EvThreadStart;
         EvLogInfo ("Creating Shotgun version: " +:+ str_dict data);
         EvCreate "Version" data;
         EvLogInfo "Uploading quicktime to Shotgun...";
         EvUpload "Version" id p "sg_uploaded_movie";
         EvThreadDied e]
  | context_raised id version e :
      Worked data p n k
        [EvThreadStart;
         EvLogInfo ("Creating Shotgun version: " +:+ str_dict data);
         EvCreate "Version" data;
         EvLogInfo "Uploading quicktime to Shotgun...";
         EvUpload "Version" id p "sg_uploaded_movie";
         EvMainThread version;
         EvThreadDied e]
  | result_shown id version version_context :
      Worked data p n k
        [EvThreadStart;
         EvLogInfo ("Creating Shotgun version: " +:+ str_dict data);
         EvCreate "Version" data;
         EvLogInfo "Uploading quicktime to Shotgun...";
         EvUpload "Version" id p "sg_uploaded_movie";
         EvMainThread version;
         EvShowDialog n (QuickReviewSuccessWidget version_context) k].

End Program.

(** The state of an action of state [s] that holds [record] and the
    confirmation widget [w], in world [x] after [k] dialogs. *)
Abbreviation stored s x record w k :=
  (mkSt x {| _name := _name (self s); _quicktime := Some record;
             _confirm_widget := w |} k).

(** ** A concrete host

    A small executable host, used to run the program on concrete inputs:
    a disk that is a set of paths, POSIX path functions, a scene with a
    frame range, and a server that answers or fails as the world says. *)

Module Posix.

(** [s.rfind(c)]: the index of the last [c] in [s]. *)
Fixpoint rfind_from (c : Ascii.ascii) (s : string) (i : nat)
    (last : option nat) : option nat :=
  match s with
  | EmptyString => last
  | String a s' =>
      rfind_from c s' (S i) (if Ascii.eqb a c then Some i else last)
  end.

Definition rfind (c : Ascii.ascii) (s : string) : option nat :=
  rfind_from c s 0%nat None.

Definition slash : Ascii.ascii := Ascii.ascii_of_nat 47.
Definition dot : Ascii.ascii := Ascii.ascii_of_nat 46.

(** [s.lstrip(c)] *)
Fixpoint lstrip (c : Ascii.ascii) (s : string) : string :=
  match s with
  | String a s' => if Ascii.eqb a c then lstrip c s' else s
  | EmptyString => EmptyString
  end.

(** [s.rstrip(c)] *)
Definition rstrip (c : Ascii.ascii) (s : string) : string :=
  String.rev (lstrip c (String.rev s)).

(** [s[i:]] *)
Definition drop_str (i : nat) (s : string) : string :=
  String.substring i (String.length s - i) s.

(** [posixpath.dirname] *)
Definition dirname (p : string) : string :=
  let i := match rfind slash p with Some i => S i | None => 0%nat end in
  let head := String.substring 0 i p in
  if String.eqb (lstrip slash head) "" then head else rstrip slash head.

(** [posixpath.basename] *)
Definition basename (p : string) : string :=
  let i := match rfind slash p with Some i => S i | None => 0%nat end in
  drop_str i p.

(** [posixpath.splitext]: the extension starts at the last dot of the
    last component, unless only dots precede it there. *)
Definition splitext (p : string) : string * string :=
  let name_start := match rfind slash p with Some i => S i | None => 0%nat end in
  match rfind dot p with
  | Some d =>
      if (name_start <=? d)%nat
      then if String.eqb (lstrip dot (String.substring name_start (d - name_start) p)) ""
           then (p, "")
           else (String.substring 0 d p, drop_str d p)
      else (p, "")
  | None => (p, "")
  end.

Record World := mkWorld {
  files : gset string;            (* the paths that exist *)
  denied : gset string;           (* paths the process may not create or remove *)
  min_time : QArith_base.Q;       (* frame slider *)
  max_time : QArith_base.Q;
  playblast_error : option PyExc; (* [Some e]: the playblast raises [e] *)
  playblast_writes : bool;        (* a playblast that returns leaves the movie on disk *)
  create_error : option PyExc;    (* [Some e]: the server refuses the create *)
  upload_error : option PyExc;    (* [Some e]: the upload fails *)
  task : PyVal;                   (* [context.task] *)
  typed_notes : string;           (* the notes in the confirmation dialog *)
}.

Definition with_files (fs : gset string) (x : World) : World :=
  mkWorld fs (denied x) (min_time x) (max_time x) (playblast_error x)
    (playblast_writes x) (create_error x) (upload_error x) (task x)
    (typed_notes x).

Definition entity (type : string) (id : Z) : PyVal :=
  PyDict (<["type" := PyStr type]> (<["id" := PyInt id]> ∅)).

#[export] Instance host : Host := {|
  Ext := World;
  os_path_exists p x := bool_decide (p ∈ files x);
  os_path_dirname := dirname;
  os_path_basename := basename;
  os_path_splitext := splitext;
  host_makedirs d x :=
    if bool_decide (d ∈ denied x)
    then (Some ("[Errno 13] Permission denied: " +:+ d), x)
    else if bool_decide (d ∈ files x)
    then (Some ("[Errno 17] File exists: " +:+ d), x)
    else (None, with_files ({[d]} ∪ files x) x);
  host_remove p x :=
    if bool_decide (p ∈ denied x)
    then (Some ("[Errno 13] Permission denied: " +:+ p), x)
    else if bool_decide (p ∈ files x)
    then (None, with_files (files x ∖ {[p]}) x)
    else (Some ("[Errno 2] No such file or directory: " +:+ p), x);
  playback_minTime := min_time;
  playback_maxTime := max_time;
  host_playblast args x :=
    match playblast_error x with
    | Some e => (Some e, x)
    | None =>
        (None, if playblast_writes x
               then with_files ({[filename args]} ∪ files x) x
               else x)
    end;
  Template := string;
  get_template key := "/proj/review/shot_010.";
  as_template_fields _ _ := ∅;
  apply_fields t fields :=
    match fields !! "timestamp" with
    | Some (PyStr stamp) => t +:+ stamp +:+ ".mov"
    | _ => t +:+ "mov"
    end;
  now_strftime _ := "2013-05-01_12-00";
  get_current_user _ := entity "HumanUser" 7;
  context_entity _ := entity "Shot" 10;
  context_project _ := entity "Project" 1;
  context_task := task;
  widget_notes _ := typed_notes;
  str_dict _ := "{...}";
  host_create entity_type data x :=
    match create_error x with
    | Some e => (inl e, x)
    | None => (inr (<["type" := PyStr entity_type]> (<["id" := PyInt 101]> data)), x)
    end;
  host_upload _ _ _ _ x := (upload_error x, x);
  context_from_entity entity_type id _ :=
    inr (PyDict (<["type" := PyStr entity_type]> (<["id" := id]> ∅)));
|}.

(** A world with the review directory in place and a scene of frames
    1 to 24. *)
Definition world0 : World :=
  {| files := {["/proj/review"]};
     denied := ∅;
     min_time := QArith_base.Qmake 1 1;
     max_time := QArith_base.Qmake 24 1;
     playblast_error := None;
     playblast_writes := true;
     create_error := None;
     upload_error := None;
     task := entity "Task" 55;
     typed_notes := "first pass" |}.

(** The playblast raises. *)
Definition world_playblast_raises : World :=
  {| files := {["/proj/review"]};
     denied := ∅;
     min_time := QArith_base.Qmake 1 1;
     max_time := QArith_base.Qmake 24 1;
     playblast_error := Some (mkExc OtherException "Unable to playblast");
     playblast_writes := true;
     create_error := None;
     upload_error := None;
     task := PyNone;
     typed_notes := "" |}.

(** The playblast returns but leaves no movie behind. *)
Definition world_no_movie : World :=
  {| files := {["/proj/review"]};
     denied := ∅;
     min_time := QArith_base.Qmake 1 1;
     max_time := QArith_base.Qmake 24 1;
     playblast_error := None;
     playblast_writes := false;
     create_error := None;
     upload_error := None;
     task := PyNone;
     typed_notes := "" |}.

(** The review directory is missing and may not be created. *)
Definition world_no_directory : World :=
  {| files := ∅;
     denied := {["/proj/review"]};
     min_time := QArith_base.Qmake 1 1;
     max_time := QArith_base.Qmake 24 1;
     playblast_error := None;
     playblast_writes := true;
     create_error := None;
     upload_error := None;
     task := PyNone;
     typed_notes := "" |}.

(** The server refuses the create call. *)
Definition world_create_fails : World :=
  {| files := {["/proj/review"]};
     denied := ∅;
     min_time := QArith_base.Qmake 1 1;
     max_time := QArith_base.Qmake 24 1;
     playblast_error := None;
     playblast_writes := true;
     create_error := Some (mkExc OtherException "Connection refused");
     upload_error := None;
     task := PyNone;
     typed_notes := "" |}.

(** The upload fails after the version was created. *)
Definition world_upload_fails : World :=
  {| files := {["/proj/review"]};
     denied := ∅;
     min_time := QArith_base.Qmake 1 1;
     max_time := QArith_base.Qmake 24 1;
     playblast_error := None;
     playblast_writes := true;
     create_error := None;
     upload_error := Some (mkExc OtherException "Connection reset");
     task := PyNone;
     typed_notes := "" |}.

(** The state of a freshly built action in world [x]. *)
Definition fresh (x : World) : St := mkSt x __init__ 0.

Definition movie : string := "/proj/review/shot_010.2013-05-01_12-00.mov".

(** A record as a successful capture leaves it. *)
Definition record0 : Quicktime :=
  {| success := true;
     error_msg := None;
     frame_count := Some 24;
     frame_range := Some "1-24";
     first_frame := Some 1;
     last_frame := Some 24;
     path := Some movie |}.

(** The state once [execute] has shown the confirmation dialog. *)
Definition confirming (x : World) : St :=
  mkSt (with_files ({[movie]} ∪ files x) x)
    {| _name := "Quick Review"; _quicktime := Some record0;
       _confirm_widget := Some 0%nat |} 1.

(** The state once the [with] block of [execute] has stored [record0]. *)
Definition captured (x : World) : St :=
  mkSt x {| _name := "Quick Review"; _quicktime := Some record0;
            _confirm_widget := None |} 0.

(** The playblast [_generate_quicktime] asks for in these worlds. *)
Definition playblast0 : Playblast :=
  {| compression := "jpeg"; endTime := 24; filename := movie;
     forceOverwrite := true; format := "movie"; offScreen := true;
     startTime := 1; viewer := false |}.

(** The record of the capture attempt in [world_playblast_raises]. *)
Definition record_raised : Quicktime :=
  {| success := false;
     error_msg := Some "Unable to playblast";
     frame_count := Some 24;
     frame_range := Some "1-24";
     first_frame := Some 1;
     last_frame := Some 24;
     path := Some movie |}.

(** An action that shows a confirmation dialog but holds the record of
    a later attempt that could not create the directory. *)
Definition stale_dialog (x : World) : St :=
  mkSt x
    {| _name := "Quick Review";
       _quicktime :=
         Some {| success := false;
                 error_msg := Some "[Errno 13] Permission denied: /proj/review";
                 frame_count := None; frame_range := None;
                 first_frame := None; last_frame := None; path := None |};
       _confirm_widget := Some 0%nat |} 2.

(** A worker as [_upload] builds it. *)
Definition thread0 : UploadThread :=
  mkUploadThread
    (version_data record0 "shot_010.2013-05-01_12-00"
       (entity "HumanUser" 7) "first pass" world0)
    (λ version, _upload_complete version).

(** The version the server of [world0] creates for [thread0]. *)
Definition version0 : gmap string PyVal :=
  <["type" := PyStr "Version"]> (<["id" := PyInt 101]> (_data thread0)).

End Posix.

(** ** More of the code: reading logs, whole uses, widgets.py *)

Definition is_makedirs (e : Event) : bool :=
  match e with EvMakedirs _ => true | _ => false end.

Definition is_dialog (e : Event) : bool :=
  match e with EvShowDialog _ _ _ => true | _ => false end.

Definition is_error_dialog (e : Event) : bool :=
  match e with
  | EvShowDialog _ (ErrorWidget _ _) _ => true
  | _ => false
  end.


Definition is_busy (e : Event) : bool :=
  match e with EvShowBusy _ _ | EvClearBusy => true | _ => false end.


(** The events of [log] before the first one that satisfies [P]. *)
Fixpoint before_first (P : Event → bool) (log : list Event) : list Event :=
  match log with
  | [] => []
  | e :: log' => if P e then [] else e :: before_first P log'
  end.

(** The events of [log] after the first one that satisfies [P]. *)
Fixpoint after_first (P : Event → bool) (log : list Event) : list Event :=
  match log with
  | [] => []
  | e :: log' => if P e then log' else after_first P log'
  end.

Section Uses.
Context `{host : Host}.

(** The events that follow the confirmation dialog [k] for the movie
    [p], by what the user does; [n] is the name of the action. *)
Inductive Clicked (n : string) (k : nat) (p : string)
    : option Click → list Event → Prop :=
  | left_open : Clicked n k p None []
  | cancelled outcome :
      outcome = EvLogInfo ("Removed unused quicktime: " +:+ p)
      ∨ outcome = EvLogError ("Unable to remove unused quicktime: " +:+ p) →
      Clicked n k p (Some Cancel) [EvRemove p; outcome; EvClose k]
  | submitted data worker :
      data !! "code" = Some (PyStr (os_path_splitext (os_path_basename p)).1) →
      Worked data (PyStr p) n (S k) worker →
      Clicked n k p (Some Submit)
        ([EvClose k;
          EvShowBusy n "<br>Uploading quicktime for newly created version...";
          EvClearBusy] ++ worker).

(** The events of one use of the action named [n], whose first dialog
    gets the id [k]. *)
Inductive Used (n : string) (k : nat) (user : option Click)
    : list Event → Prop :=
  | used_invalid p record ev :
      Captured p record ev →
      Used n k user
        ((EvShowBusy n "<br>Generating quicktime..." :: ev ++ [EvClearBusy])
         ++ [EvLogError (message (error_msg record));
             EvShowDialog n
               (ErrorWidget (summary n) (message (error_msg record))) k])
  | used_valid p made args clicks :
      made = [] ∨ made = [EvMakedirs (os_path_dirname p)] →
      filename args = p →
      Clicked n k p user clicks →
      Used n k user
        ((EvShowBusy n "<br>Generating quicktime..."
          :: (made ++ [EvPlayblast args]) ++ [EvClearBusy])
         ++ [EvShowDialog n (QuickReviewConfirmWidget p) k] ++ clicks).

End Uses.

(** *** widgets.py *)

(** The double quote of the command lines. *)
Definition dq : string := String (Ascii.ascii_of_nat 34) "".

(** What a widget asks of the desktop. *)
Inductive DesktopEvent :=
  | EvSystem (cmd : string)
  | EvEngineLogError (msg : string).

(** [sys.platform] and [os.system] (its value is the exit status). *)
Class Desktop `{host : Host} := {
  sys_platform : string;
  host_system : string → Ext → Z * Ext;
}.

(** A [QuickReviewConfirmWidget] object: the text of its [version_name]
    label, and its [_engine] attribute ([None]: the object has no such
    attribute). *)
Record ConfirmWidget := mkConfirmWidget {
  version_name : string;
  _engine : option unit;
}.

Section Widgets.
Context `{desktop : Desktop}.

(** [QuickReviewConfirmWidget.__init__] (widgets.py, lines 28-47): the
    label shows the basename of the path; no statement of the class
    assigns [_engine]. *)
Definition ConfirmWidget__init__ (quicktime_path : string) : ConfirmWidget :=
  {| version_name := os_path_basename quicktime_path; _engine := None |}.

(** The command of [_open_in_fs] for a platform (lines 70-77); [None]:
    the platform is not supported. *)
Definition launcher (system path : string) : option string :=
  if String.eqb system "linux2"
  then Some ("xdg-open " +:+ dq +:+ path +:+ dq)
  else if String.eqb system "darwin"
  then Some ("open " +:+ dq +:+ path +:+ dq)
  else if String.eqb system "win32"
  then Some ("cmd.exe /C start " +:+ dq +:+ "Folder" +:+ dq +:+ " "
             +:+ dq +:+ path +:+ dq)
  else None.

(** [QuickReviewConfirmWidget._open_in_fs] (lines 59-81) *)
Definition _open_in_fs (widget : ConfirmWidget) (path : string) (x : Ext)
    : Result unit * Ext * list DesktopEvent :=
  let system := sys_platform in
  match launcher system path with
  | None =>
      (Raise (mkExc OtherException
                ("Platform '" +:+ system +:+ "' is not supported.")), x, [])
  | Some cmd =>
      let '(exit_code, x') := host_system cmd x in
      if exit_code =? 0 then (Ok (), x', [EvSystem cmd])
      else match _engine widget with
           | Some _ =>
               (Ok (), x',
                [EvSystem cmd;
                 EvEngineLogError ("Failed to launch '" +:+ cmd +:+ "'!")])
           | None =>
               (Raise (mkExc AttributeError
                         "'QuickReviewConfirmWidget' object has no attribute '_engine'"),
                x', [EvSystem cmd])
           end
  end.

End Widgets.

(** A desktop for the concrete host: the launcher succeeds for paths
    that exist. *)
Module PosixDesktop.
Import Posix.

Definition linux : Desktop := {|
  sys_platform := "linux2";
  host_system cmd x :=
    (if bool_decide
          (cmd = "xdg-open " +:+ dq +:+ movie +:+ dq ∧ movie ∈ files x)
     then 0 else 4, x);
|}.

Definition other : Desktop := {|
  sys_platform := "linux";
  host_system cmd x := (0, x);
|}.

(** A record marked successful that carries no path, and an action
    that was given it through the [quicktime] setter. *)
Definition record_without_path : Quicktime :=
  {| success := true;
     error_msg := None;
     frame_count := Some 24;
     frame_range := Some "1-24";
     first_frame := Some 1;
     last_frame := Some 24;
     path := None |}.

Definition holding_without_path (x : World) : St :=
  mkSt x {| _name := "Quick Review";
            _quicktime := Some record_without_path;
            _confirm_widget := None |} 0.

(** A worker whose payload has no movie path. *)
Definition thread_without_path : UploadThread :=
  mkUploadThread (<["code" := PyStr "shot_010"]> ∅)
    (λ version, _upload_complete version).

(** The state once a second [execute] has shown its confirmation
    dialog. *)
Definition confirming_again (x : World) : St :=
  mkSt (with_files ({[movie]} ∪ files (with_files ({[movie]} ∪ files x) x))
          (with_files ({[movie]} ∪ files x) x))
    {| _name := "Quick Review"; _quicktime := Some record0;
       _confirm_widget := Some 1%nat |} 2.

End PosixDesktop.

(** * Properties *)

Example posix_dirname :
  Posix.dirname Posix.movie = "/proj/review"
  ∧ Posix.basename Posix.movie = "shot_010.2013-05-01_12-00.mov"
  ∧ Posix.splitext (Posix.basename Posix.movie)
    = ("shot_010.2013-05-01_12-00", ".mov")
  ∧ Posix.splitext "/a.b/.hidden" = ("/a.b/.hidden", "")
  ∧ Posix.dirname "movie.mov" = "".
Proof. repeat split; reflexivity. Qed.

Example pretty_frames :
  pretty 1 +:+ "-" +:+ pretty 24 = "1-24"
  ∧ pretty (-5) +:+ "-" +:+ pretty 0 = "-5-0"
  ∧ py_int (QArith_base.Qmake (-7) 2) = -3
  ∧ py_int (QArith_base.Qmake 7 2) = 3.
Proof. repeat split; reflexivity. Qed.

Section Properties.
Context `{host : Host}.

(** Unfolds the monad and the host wrappers. *)
Ltac unfold_m :=
  cbv [mbind M_bind mret M_ret bind ret raise try_except try_except_else
       with_ with_busy __enter__ __exit__ busy name quicktime set_quicktime
       quicktime_attr confirm_widget set_confirm_widget close emit get_ext
       get_self set_self host_call os_makedirs os_remove os_path_exists_arg
       os_path_basename_arg cmds_playblast log_error log_info show_dialog
       show_global_busy clear_global_busy shotgun_create shotgun_upload
       getitem execute_in_main_thread py_and is_Exception].

(** Case analysis on the answer of the host call at the head of the goal. *)
Ltac host_cases :=
  repeat match goal with
    | |- context [host_makedirs ?d ?x] =>
        let E := fresh "Emk" in destruct (host_makedirs d x) as [[?|] ?] eqn:E
    | |- context [host_remove ?p ?x] =>
        let E := fresh "Erm" in destruct (host_remove p x) as [[?|] ?] eqn:E
    | |- context [host_playblast ?a ?x] =>
        let E := fresh "Epb" in destruct (host_playblast a x) as [[?|] ?] eqn:E
    | |- context [host_create ?t ?d ?x] =>
        let E := fresh "Ecr" in destruct (host_create t d x) as [[?|?] ?] eqn:E
    | |- context [host_upload ?t ?i ?p ?f ?x] =>
        let E := fresh "Eup" in destruct (host_upload t i p f x) as [[?|] ?] eqn:E
    end; cbn [ext self dialogs fst snd app].

(** A concrete list of step indices is sorted. *)
Ltac by_sorted :=
  lazymatch goal with
  | |- Sorted _ _ => cbn; repeat (constructor; try lia)
  end.

(** *** Reading logs *)

Lemma preceded_by_seen (P Q : Event → bool) (seen : bool) (log : list Event) :
  preceded_by P Q seen log = true ↔
  ∀ i e, log !! i = Some e → Q e = true →
         seen = true
         ∨ ∃ j e', (j < i)%nat ∧ log !! j = Some e' ∧ P e' = true.
Proof.
  revert seen. induction log as [|a log IH]; intros seen; cbn.
  - split; [|done]. intros _ i e Hi. by rewrite lookup_nil in Hi.
  - rewrite andb_true_iff, IH. split.
    + intros [Ha Hlog] [|i] e Hi HQ; cbn in Hi.
      * injection Hi as ->. rewrite HQ in Ha. by left.
      * destruct (Hlog i e Hi HQ) as [Hseen|(j & e' & Hj & He' & HP)].
        -- apply orb_true_iff in Hseen as [->|HP]; [by left|].
           right. exists 0%nat, a. split; [lia|done].
        -- right. exists (S j), e'. split; [lia|done].
    + intros H. split.
      * destruct (Q a) eqn:HQ; [|done].
        destruct (H 0%nat a eq_refl HQ) as [->|(j & _ & Hj & _)]; [done|lia].
      * intros i e Hi HQ.
        destruct (H (S i) e Hi HQ) as [->|(j & e' & Hj & He' & HP)];
          [by left|].
        destruct j as [|j]; cbn in He'.
        -- injection He' as ->. left. rewrite HP. apply orb_true_r.
        -- right. exists j, e'. split; [lia|done].
Qed.

(** The checker [preceded_by] decides [Precedes]. *)
Lemma preceded_by_spec (P Q : Event → bool) (log : list Event) :
  preceded_by P Q false log = true ↔ Precedes P Q log.
Proof.
  rewrite preceded_by_seen. unfold Precedes.
  split; intros H i e Hi HQ.
  - by destruct (H i e Hi HQ) as [?|?].
  - right. by apply (H i e).
Qed.

(** Facts about a concrete log: counts, order, membership. *)
Ltac log_facts :=
  cbn; repeat (intros; split); intros;
  try done; try lia; try by_sorted;
  try (apply preceded_by_spec; reflexivity);
  cbn in *; simplify_eq; try congruence; eauto; try set_solver.

(** *** The busy indicator *)

Lemma busy_shown_app b log1 log2 :
  busy_shown b (log1 ++ log2) = busy_shown (busy_shown b log1) log2.
Proof. apply fold_left_app. Qed.

(** An [ActionBusy] block runs its body once, between showing and
    clearing the indicator, and ends as the body ended. *)
Lemma ActionBusy_clears {A} (cm : ActionBusy) (body : M A) (s : St) :
  ∃ r s' ev,
    body s = (r, s', ev)
    ∧ with_busy cm body s
      = (r, s', EvShowBusy (_title cm) (_msg cm) :: ev ++ [EvClearBusy]).
Proof.
  destruct (body s) as [[r s'] ev] eqn:Hbody.
  exists r, s', ev. split; [done|]. unfold_m. by rewrite Hbody.
Qed.

(** C8. [with ActionBusy(...)]: whatever the body does, returning or
    raising, the block shows the busy indicator, runs the body once, and
    clears the indicator last; the body's outcome is the block's outcome
    and the indicator is not shown once the block has ended. *)
Theorem ActionBusy_always_clears {A} (cm : ActionBusy) (body : M A)
    (s : St) (before : bool) :
  ∃ r s' ev,
    body s = (r, s', ev)
    ∧ with_busy cm body s
      = (r, s', EvShowBusy (_title cm) (_msg cm) :: ev ++ [EvClearBusy])
    ∧ busy_shown before
        (EvShowBusy (_title cm) (_msg cm) :: ev ++ [EvClearBusy]) = false.
Proof.
  destruct (ActionBusy_clears cm body s) as (r & s' & ev & Hbody & Hwith).
  exists r, s', ev. split; [done|]. split; [done|].
  change (EvShowBusy (_title cm) (_msg cm) :: ev ++ [EvClearBusy])
    with ([EvShowBusy (_title cm) (_msg cm)] ++ ev ++ [EvClearBusy]).
  by rewrite !busy_shown_app.
Qed.

(** *** The record of a capture attempt *)

(** [_generate_quicktime] always returns a record (both of its [try]
    statements catch what the host call may raise), touches neither the
    action nor the dialogs, and the record and the events are as
    [Captured] says. *)
Lemma _generate_quicktime_cases (quicktime_path : string) (s : St) :
  ∃ record x ev,
    _generate_quicktime quicktime_path s
    = (Ok record, mkSt x (self s) (dialogs s), ev)
    ∧ Captured quicktime_path record ev.
Proof.
  unfold _generate_quicktime. unfold_m.
  destruct (os_path_exists _ _); cbn; host_cases; cbn;
    eexists _, _, _; (split; [reflexivity|]).
  - apply (played quicktime_path []); [by left | by split].
  - apply (played quicktime_path []); [by left | by split].
  - apply no_directory.
  - apply (played quicktime_path [_]); [by right | by split].
  - apply (played quicktime_path [_]); [by right | by split].
Qed.

(** The events of a capture attempt hold a playblast exactly when the
    record has a path. *)
Lemma Captured_playblast quicktime_path record ev :
  Captured quicktime_path record ev →
  existsb is_playblast ev = bool_decide (path record = Some quicktime_path)
  ∧ (count is_playblast ev ≤ 1)%nat.
Proof.
  destruct 1 as [msg|made ok em first last [-> | ->] Hok]; cbn.
  - rewrite bool_decide_eq_false_2; [split; [done | lia] | done].
  - rewrite bool_decide_eq_true_2; [split; [done | lia] | done].
  - rewrite bool_decide_eq_true_2; [split; [done | lia] | done].
Qed.


(** C9. A record whose frame fields are set is consistent: the count is
    [last - first + 1], the range is the two numbers joined by a dash,
    and the path is the requested one, whether the playblast returned or
    raised. *)
Theorem frame_fields_consistent (quicktime_path : string) (s : St)
    (record : Quicktime) (s' : St) (ev : list Event) (first last : Z) :
  _generate_quicktime quicktime_path s = (Ok record, s', ev) →
  first_frame record = Some first →
  last_frame record = Some last →
  frame_count record = Some (last - first + 1)
  ∧ frame_range record = Some (pretty first +:+ "-" +:+ pretty last)
  ∧ path record = Some quicktime_path.
Proof.
  intros Hgen Hfirst Hlast.
  destruct (_generate_quicktime_cases quicktime_path s)
    as (record' & x & ev' & Hgen' & Hcap).
  rewrite Hgen in Hgen'. injection Hgen' as <- _ <-.
  destruct Hcap; cbn in *; [done|]. by simplify_eq.
Qed.

(** *** Validation *)

(** [_validate_quicktime] on an action that holds a record: it returns,
    silently, without touching the state, a value as truthy as [valid]
    says. *)
Lemma _validate_quicktime_valid (s : St) (record : Quicktime) :
  _quicktime (self s) = Some record →
  ∃ v, _validate_quicktime s = (Ok v, s, [])
       ∧ truthy v = valid record (ext s).
Proof.
  intros Hq. unfold _validate_quicktime, valid. unfold_m.
  destruct record as [[] em fc fr ff lf [p|]];
    repeat progress (cbn; rewrite ?Hq);
    [|eexists; (split; [reflexivity|done])..].
  destruct (String.eqb p "") eqn:Hp; repeat progress (cbn; rewrite ?Hq);
    eexists; (split; [reflexivity|cbn; by rewrite ?Hp]).
Qed.

Lemma valid_iff (record : Quicktime) (x : Ext) :
  valid record x = true ↔
  success record = true
  ∧ ∃ p, path record = Some p ∧ p ≠ "" ∧ os_path_exists p x = true.
Proof.
  unfold valid. destruct (success record), (path record) as [p|]; cbn;
    [|naive_solver..].
  destruct (String.eqb_spec p ""); cbn; naive_solver.
Qed.

(** C2. For an action holding a record, [_validate_quicktime] returns,
    logs nothing and leaves the whole state (the record included) as it
    was; its value is truthy exactly when [success] is true, [path] is a
    non-empty string, and the host says that path exists. *)
Theorem _validate_quicktime_iff (s : St) (record : Quicktime) :
  _quicktime (self s) = Some record →
  ∃ v, _validate_quicktime s = (Ok v, s, [])
       ∧ (truthy v = true ↔
          success record = true
          ∧ ∃ p, path record = Some p ∧ p ≠ ""
                 ∧ os_path_exists p (ext s) = true).
Proof.
  intros Hq. destruct (_validate_quicktime_valid s record Hq) as (v & Hv & Ht).
  exists v. split; [done|]. rewrite Ht. apply valid_iff.
Qed.

(** *** [execute] *)

(** The [with] block of [execute]: one capture attempt between showing
    and clearing the busy indicator, the record stored on the action. *)
Lemma generate_cases (s : St) :
  ∃ quicktime_path record x ev,
    _get_quicktime_path s = (Ok quicktime_path, s, [])
    ∧ _generate_quicktime quicktime_path s
      = (Ok record, mkSt x (self s) (dialogs s), ev)
    ∧ Captured quicktime_path record ev
    ∧ generate s
      = (Ok quicktime_path,
         stored s x record (_confirm_widget (self s)) (dialogs s),
         EvShowBusy (_name (self s)) "<br>Generating quicktime..."
         :: ev ++ [EvClearBusy]).
Proof.
  destruct (_get_quicktime_path s) as [[r s0] ev0] eqn:Hpath.
  assert (∃ p, r = Ok p ∧ s0 = s ∧ ev0 = []) as (p & -> & -> & ->).
  { injection Hpath as <- <- <-. by eexists. }
  destruct (_generate_quicktime_cases p s) as (record & x & ev & Hgen & Hcap).
  exists p, record, x, ev. repeat split; [done..|].
  unfold generate. unfold_m. cbn. rewrite Hpath. cbn. rewrite Hgen. cbn.
  by rewrite app_nil_r.
Qed.

(** What [execute] does: it returns in every case, after one capture
    attempt; when the stored record is valid it shows the confirmation
    dialog and keeps it, otherwise it logs the error and shows the error
    dialog, and that is all. *)
Lemma execute_cases (s : St) :
  ∃ quicktime_path record x ev,
    generate s
    = (Ok quicktime_path,
       stored s x record (_confirm_widget (self s)) (dialogs s),
       EvShowBusy (_name (self s)) "<br>Generating quicktime..."
       :: ev ++ [EvClearBusy])
    ∧ Captured quicktime_path record ev
    ∧ execute s
      = if valid record x
        then (Ok (),
              stored s x record (Some (dialogs s)) (S (dialogs s)),
              (EvShowBusy (_name (self s)) "<br>Generating quicktime..."
               :: ev ++ [EvClearBusy])
              ++ [EvShowDialog (_name (self s))
                    (QuickReviewConfirmWidget quicktime_path) (dialogs s)])
        else (Ok (),
              stored s x record (_confirm_widget (self s)) (S (dialogs s)),
              (EvShowBusy (_name (self s)) "<br>Generating quicktime..."
               :: ev ++ [EvClearBusy])
              ++ [EvLogError (message (error_msg record));
                  EvShowDialog (_name (self s))
                    (ErrorWidget (summary (_name (self s)))
                       (message (error_msg record)))
                    (dialogs s)]).
Proof.
  destruct (generate_cases s) as (p & record & x & ev & _ & _ & Hcap & Hgen).
  exists p, record, x, ev. split; [done|]. split; [done|].
  destruct (_validate_quicktime_valid
              (stored s x record (_confirm_widget (self s)) (dialogs s))
              record eq_refl) as (v & Hv & Ht).
  cbn [ext] in Ht.
  unfold execute. unfold_m. rewrite Hgen. cbn. rewrite Hv. cbn.
  rewrite Ht. by destruct (valid record x).
Qed.

(** The error message quotes the record's [error_msg]. *)
Lemma message_quotes (em : option string) :
  ∃ before after, message em = before +:+ str_opt em +:+ after.
Proof.
  exists ("Oops! Unable to generate the quicktime." +:+ nl +:+ nl +:+ "Error: "),
         (nl +:+ nl +:+ "Please contact your pipeline team for assistance.").
  reflexivity.
Qed.

(** C5. When the record stored by the capture attempt fails validation,
    [execute] returns normally after exactly two more events: the error
    message, which quotes the record's [error_msg], is logged, and the
    error dialog is shown with it.  The world and the action stay as the
    capture attempt left them; the whole log holds at most one
    playblast, and no confirmation dialog, worker, create, upload or
    removal. *)
Theorem execute_validation_failure (s s1 s1' : St) (quicktime_path : string)
    (ev1 evv : list Event) (record : Quicktime) (v : PyVal) :
  generate s = (Ok quicktime_path, s1, ev1) →
  _quicktime (self s1) = Some record →
  _validate_quicktime s1 = (Ok v, s1', evv) →
  truthy v = false →
  ∃ s2 log,
    execute s = (Ok (), s2, log)
    ∧ log = ev1 ++ [EvLogError (message (error_msg record));
                    EvShowDialog (_name (self s))
                      (ErrorWidget (summary (_name (self s)))
                         (message (error_msg record)))
                      (dialogs s)]
    ∧ (∃ before after,
         message (error_msg record)
         = before +:+ str_opt (error_msg record) +:+ after)
    ∧ ext s2 = ext s1 ∧ self s2 = self s1
    ∧ (count is_playblast log ≤ 1)%nat
    ∧ existsb is_confirm_dialog log = false
    ∧ existsb is_thread_start log = false
    ∧ existsb is_create log = false
    ∧ existsb is_upload log = false
    ∧ existsb is_remove log = false.
Proof.
  intros Hgen Hq Hv Ht.
  destruct (execute_cases s) as (p & record' & x & ev & Hgen' & Hcap & Hex).
  rewrite Hgen in Hgen'. injection Hgen' as <- -> ->.
  cbn in Hq. injection Hq as ->.
  destruct (_validate_quicktime_valid
              (stored s x record (_confirm_widget (self s)) (dialogs s))
              record eq_refl) as (v' & Hv' & Ht').
  rewrite Hv in Hv'. injection Hv' as <- _ _.
  cbn [ext] in Ht'. rewrite <- Ht', Ht in Hex.
  eexists _, _. split; [exact Hex|]. split; [done|].
  split; [apply message_quotes|]. split; [done|]. split; [done|].
  destruct Hcap as [msg|made ok em first last [-> | ->] Hok]; cbn;
    (split; [lia | done]).
Qed.

(** *** Rejection *)

(** What [_rejected] does when the confirmation widget is [w]. *)
Lemma _rejected_cases (s : St) (w : nat) :
  _confirm_widget (self s) = Some w →
  match _quicktime (self s) with
  | None => _rejected s = (Ok (), s, [EvClose w])
  | Some record =>
      match path record with
      | None =>
          ∃ e, _rejected s = (Raise e, s, []) ∧ exc_class e = TypeError
      | Some p =>
          match host_remove p (ext s) with
          | (None, x) =>
              _rejected s
              = (Ok (), mkSt x (self s) (dialogs s),
                 [EvRemove p;
                  EvLogInfo ("Removed unused quicktime: " +:+ p);
                  EvClose w])
          | (Some _, x) =>
              _rejected s
              = (Ok (), mkSt x (self s) (dialogs s),
                 [EvRemove p;
                  EvLogError ("Unable to remove unused quicktime: " +:+ p);
                  EvClose w])
          end
      end
  end.
Proof.
  intros Hw. unfold _rejected, _cleanup. unfold_m. cbn.
  destruct (_quicktime (self s)) as [record|] eqn:Hq; cbn.
  - rewrite Hq. cbn. destruct (path record) as [p|]; cbn.
    + host_cases; cbn; rewrite Hw; cbn; done.
    + by eexists.
  - rewrite Hw. cbn. by destruct s.
Qed.

(** When [execute] has shown the confirmation dialog, the action holds
    the widget and a record with a path: the state in which the preview
    can be rejected. *)
Lemma execute_confirm_rejectable (s s' : St) (log : list Event) :
  execute s = (Ok (), s', log) →
  existsb is_confirm_dialog log = true →
  _confirm_widget (self s') = Some (dialogs s)
  ∧ ∃ record p, _quicktime (self s') = Some record ∧ path record = Some p.
Proof.
  intros Hex Hshown.
  destruct (execute_cases s) as (p & record & x & ev & _ & Hcap & Hex').
  rewrite Hex in Hex'. destruct (valid record x) eqn:Hvalid.
  - injection Hex' as -> _. split; [done|]. exists record. cbn.
    apply valid_iff in Hvalid as (_ & q & Hq & _). by exists q.
  - injection Hex' as _ ->. exfalso.
    by destruct Hcap as [msg|made ok em first last [-> | ->] Hok].
Qed.


(** *** The upload worker *)

(** C3, as amended.  The log of [run] splits into the worker's own
    events [pre] and the events [post] of the callback.  In every run
    the create call is made exactly once, the upload call and the
    hand-over to the main thread at most once each, in that order, and
    nothing is repeated.  The upload is made, with the id of the created
    version and the movie path of the payload, when create returned a
    version; the callback is called, with that version, when the upload
    returned too.  A call that raises ends the run there: the exception
    leaves [run] and the callback is not called.  When create raises,
    [run] raises that exception after the create call alone, without an
    upload and without the callback; when the version has no id or the
    payload no movie path, [run] raises [KeyError] without an upload;
    when upload raises, [run] raises that exception after the one
    upload call, without the callback. *)
Theorem run_one_shot (t : UploadThread) (s : St) :
  ∃ r s' pre post,
    run t s = (r, s', pre ++ post)
    ∧ count is_create pre = 1%nat
    ∧ (count is_upload pre ≤ 1)%nat
    ∧ (count is_main_thread pre ≤ 1)%nat
    ∧ Sorted le (steps pre)
    ∧ Precedes is_create is_upload pre
    ∧ Precedes is_upload is_main_thread pre
    ∧ (count is_main_thread pre = 0%nat → post = [] ∧ ∃ e, r = Raise e)
    ∧ (∀ version x1,
        host_create "Version" (_data t) (ext s) = (inr version, x1) →
        ∀ id p,
          version !! "id" = Some id →
          _data t !! "sg_path_to_movie" = Some p →
          EvUpload "Version" id p "sg_uploaded_movie" ∈ pre
          ∧ ∀ x2,
              host_upload "Version" id p "sg_uploaded_movie" x1 = (None, x2) →
              EvMainThread version ∈ pre
              ∧ _callback t version (mkSt x2 (self s) (dialogs s))
                = (r, s', post))
    ∧ (∀ e x1,
        host_create "Version" (_data t) (ext s) = (inl e, x1) →
        r = Raise e
        ∧ s' = mkSt x1 (self s) (dialogs s)
        ∧ pre = [EvLogInfo ("Creating Shotgun version: "
                            +:+ str_dict (_data t));
                 EvCreate "Version" (_data t)]
        ∧ post = []
        ∧ count is_upload pre = 0%nat
        ∧ count is_main_thread pre = 0%nat)
    ∧ (∀ version x1,
        host_create "Version" (_data t) (ext s) = (inr version, x1) →
        version !! "id" = None ∨ _data t !! "sg_path_to_movie" = None →
        (∃ e, r = Raise e ∧ exc_class e = KeyError)
        ∧ s' = mkSt x1 (self s) (dialogs s)
        ∧ post = []
        ∧ count is_upload pre = 0%nat
        ∧ count is_main_thread pre = 0%nat)
    ∧ ∀ version x1,
        host_create "Version" (_data t) (ext s) = (inr version, x1) →
        ∀ id p e x2,
          version !! "id" = Some id →
          _data t !! "sg_path_to_movie" = Some p →
          host_upload "Version" id p "sg_uploaded_movie" x1 = (Some e, x2) →
          r = Raise e
          ∧ s' = mkSt x2 (self s) (dialogs s)
          ∧ pre = [EvLogInfo ("Creating Shotgun version: "
                              +:+ str_dict (_data t));
                   EvCreate "Version" (_data t);
                   EvLogInfo "Uploading quicktime to Shotgun...";
                   EvUpload "Version" id p "sg_uploaded_movie"]
          ∧ post = []
          ∧ count is_upload pre = 1%nat
          ∧ count is_main_thread pre = 0%nat.
Proof.
  unfold run. unfold_m. cbn. host_cases; cbn.
  - (* create raises *)
    eexists _, _, [_; _], []. log_facts.
  - (* create returns *)
    destruct (_data t !! "sg_path_to_movie") as [p|] eqn:Hp; cbn.
    2: { eexists _, _, [_; _], []. log_facts. }
    destruct (g !! "id") as [id|] eqn:Hid; cbn.
    2: { eexists _, _, [_; _; _], []. log_facts. }
    host_cases; cbn.
    + (* upload raises *)
      eexists _, _, [_; _; _; _], []. log_facts.
    + (* upload returns: the callback runs *)
      destruct (_callback t g _) as [[r s'] post] eqn:Hcb.
      exists r, s', [EvLogInfo ("Creating Shotgun version: " +:+ str_dict (_data t));
                     EvCreate "Version" (_data t);
                     EvLogInfo "Uploading quicktime to Shotgun...";
                     EvUpload "Version" id p "sg_uploaded_movie";
                     EvMainThread g], post.
      log_facts.
Qed.

(** A worker built by [_upload] and started: [start] returns to its
    caller whatever happens on the worker, the action is untouched, and
    the events are as [Worked] says. *)
Lemma start_cases (data : gmap string PyVal) (p : PyVal) (s : St) :
  data !! "sg_path_to_movie" = Some p →
  ∃ x k log,
    start (mkUploadThread data (λ version, _upload_complete version)) s
    = (Ok (), mkSt x (self s) k, log)
    ∧ Worked data p (_name (self s)) (dialogs s) log.
Proof.
  intros Hp. unfold start, run, _upload_complete. unfold_m. cbn.
  host_cases; cbn.
  { eexists _, _, _. split; [reflexivity|]. apply create_raised. }
  rewrite Hp. cbn.
  destruct (g !! "id") as [id|] eqn:Hid; cbn.
  2: { eexists _, _, _. split; [reflexivity|]. apply version_without_id. }
  host_cases; cbn.
  { eexists _, _, _. split; [reflexivity|]. apply upload_raised. }
  destruct (context_from_entity "Version" id _) as [?|version_context]; cbn.
  - eexists _, _, _. split; [reflexivity|]. apply context_raised.
  - eexists _, _, _. split; [reflexivity|]. eapply result_shown.
Qed.

(** Every worker's first events are the start and the create call with
    the payload. *)
Lemma Worked_create data p n k log :
  Worked data p n k log →
  ∃ rest,
    log = [EvThreadStart;
           EvLogInfo ("Creating Shotgun version: " +:+ str_dict data);
           EvCreate "Version" data] ++ rest.
Proof. destruct 1; by eexists. Qed.

(** *** [_upload] *)

(** The payload has its movie path whenever the record has a path. *)
Lemma version_data_path record code current_user notes x p :
  path record = Some p →
  version_data record code current_user notes x !! "sg_path_to_movie"
  = Some (PyStr p).
Proof.
  intros Hp. unfold version_data. rewrite Hp.
  destruct (truthy (context_task x)); by simplify_map_eq.
Qed.

(** What [_upload] does for an action that holds the confirmation
    widget [w] and a record with path [p]: it closes the widget, builds
    the payload under the busy indicator, starts the worker and
    returns. *)
Lemma _upload_cases (s : St) (w : nat) (record : Quicktime) (p : string) :
  _confirm_widget (self s) = Some w →
  _quicktime (self s) = Some record →
  path record = Some p →
  ∃ x k log,
    _upload s
    = (Ok (), mkSt x (self s) k,
       [EvClose w;
        EvShowBusy (_name (self s))
          "<br>Uploading quicktime for newly created version...";
        EvClearBusy] ++ log)
    ∧ Worked
        (version_data record (os_path_splitext (os_path_basename p)).1
           (get_current_user (ext s)) (widget_notes w (ext s)) (ext s))
        (PyStr p) (_name (self s)) (dialogs s) log.
Proof.
  intros Hw Hq Hp.
  destruct (start_cases
              (version_data record (os_path_splitext (os_path_basename p)).1
                 (get_current_user (ext s)) (widget_notes w (ext s)) (ext s))
              (PyStr p) s (version_data_path _ _ _ _ _ _ Hp))
    as (x & k & log & Hstart & Hworked).
  exists x, k, log. split; [|done].
  unfold _upload. unfold_m.
  repeat progress (cbn; rewrite ?Hw, ?Hq, ?Hp).
  destruct s as [x0 a k0]. cbn in *. by rewrite Hstart.
Qed.

(** C10. The payload that [_upload] hands to the create call: its
    ["code"] is the basename of the record's path without its extension,
    its ["sg_path_to_movie"] is the record's path, and it has the key
    ["sg_task"] exactly when the task of the context is truthy. *)
Theorem _upload_payload (s : St) (w : nat) (record : Quicktime) (p : string) :
  _confirm_widget (self s) = Some w →
  _quicktime (self s) = Some record →
  path record = Some p →
  ∃ data s' before after,
    _upload s = (Ok (), s', before ++ [EvCreate "Version" data] ++ after)
    ∧ existsb is_create before = false
    ∧ data !! "code"
      = Some (PyStr (os_path_splitext (os_path_basename p)).1)
    ∧ data !! "sg_path_to_movie" = Some (PyStr p)
    ∧ (is_Some (data !! "sg_task") ↔ truthy (context_task (ext s)) = true).
Proof.
  intros Hw Hq Hp.
  destruct (_upload_cases s w record p Hw Hq Hp)
    as (x & k & log & Hup & Hworked).
  destruct (Worked_create _ _ _ _ _ Hworked) as [rest ->].
  eexists _, _, [_; _; _; _; _], rest. split; [exact Hup|].
  split; [done|]. split; [|split].
  - unfold version_data. destruct (truthy (context_task (ext s)));
      by simplify_map_eq.
  - by apply version_data_path.
  - unfold version_data. destruct (truthy (context_task (ext s)));
      simplify_map_eq; split; (done || by intros []).
Qed.

(** *** What leaves the action alone *)

Lemma keeps_ret {A} (a : A) : keeps_self (ret a).
Proof. done. Qed.

Lemma keeps_mret {A} (a : A) : keeps_self (mret a).
Proof. done. Qed.

Lemma keeps_raise {A} (e : PyExc) : keeps_self (raise (A:=A) e).
Proof. done. Qed.

Lemma keeps_emit (e : Event) : keeps_self (emit e).
Proof. done. Qed.

Lemma keeps_get_ext : keeps_self get_ext.
Proof. done. Qed.

Lemma keeps_get_self : keeps_self get_self.
Proof. done. Qed.

Lemma keeps_host_call {A} (f : Ext → A * Ext) : keeps_self (host_call f).
Proof. intros s. unfold host_call. by destruct (f (ext s)). Qed.

Lemma keeps_show_dialog title w : keeps_self (show_dialog title w).
Proof. done. Qed.

Lemma keeps_mbind {A B} (m : M A) (k : A → M B) :
  keeps_self m → (∀ a, keeps_self (k a)) → keeps_self (m ≫= k).
Proof.
  intros Hm Hk s. unfold mbind, M_bind, bind. specialize (Hm s).
  destruct (m s) as [[[a|e] s1] ev1]; cbn in *; [|done].
  specialize (Hk a s1). destruct (k a s1) as [[r s2] ev2]. cbn in *.
  congruence.
Qed.

Lemma keeps_try_except {A} (body : M A) catches handler :
  keeps_self body → (∀ e, keeps_self (handler e)) →
  keeps_self (try_except body catches handler).
Proof.
  intros Hb Hh s. unfold try_except. specialize (Hb s).
  destruct (body s) as [[[a|e] s1] ev1]; cbn in *; [done|].
  destruct (catches e); [|done].
  specialize (Hh e s1). destruct (handler e s1) as [[r s2] ev2]. cbn in *.
  congruence.
Qed.

Lemma keeps_try_except_else {A} body catches (handler : PyExc → M A) orelse :
  keeps_self body → (∀ e, keeps_self (handler e)) → keeps_self orelse →
  keeps_self (try_except_else body catches handler orelse).
Proof.
  intros Hb Hh Ho s. unfold try_except_else. specialize (Hb s).
  destruct (body s) as [[[a|e] s1] ev1]; cbn in *.
  - specialize (Ho s1). destruct (orelse s1) as [[r s2] ev2]. cbn in *.
    congruence.
  - destruct (catches e); [|done].
    specialize (Hh e s1). destruct (handler e s1) as [[r s2] ev2]. cbn in *.
    congruence.
Qed.

Lemma keeps_with_busy {A} cm (body : M A) :
  keeps_self body → keeps_self (with_busy cm body).
Proof.
  intros Hb s. specialize (Hb s).
  destruct (ActionBusy_clears cm body s) as (r & s' & ev & Hbody & ->).
  by rewrite Hbody in Hb.
Qed.

Create HintDb keeps.
#[local] Hint Resolve keeps_ret keeps_mret keeps_raise keeps_emit
  keeps_get_ext keeps_get_self keeps_host_call keeps_show_dialog : keeps.

(** Walks through a computation: binds, [try] and [with] statements and
    case distinctions, down to the primitives. *)
Ltac keeps :=
  repeat first
    [ progress auto with keeps
    | apply keeps_mbind
    | apply keeps_try_except
    | apply keeps_try_except_else
    | apply keeps_with_busy
    | lazymatch goal with |- ∀ _, _ => intro end
    | case_match ].

Lemma keeps_quicktime_attr {A} (field : Quicktime → A) :
  keeps_self (quicktime_attr field).
Proof. unfold quicktime_attr, quicktime. keeps. Qed.

Lemma keeps_confirm_widget : keeps_self confirm_widget.
Proof. unfold confirm_widget. keeps. Qed.

Lemma keeps_name : keeps_self name.
Proof. unfold name. keeps. Qed.

#[local] Hint Resolve keeps_quicktime_attr keeps_confirm_widget keeps_name
  : keeps.

Lemma keeps__validate_quicktime : keeps_self _validate_quicktime.
Proof.
  unfold _validate_quicktime, py_and, os_path_exists_arg. keeps.
Qed.

Lemma keeps__cleanup : keeps_self _cleanup.
Proof.
  unfold _cleanup, quicktime, os_remove, log_error, log_info. keeps.
Qed.

Lemma keeps__rejected : keeps_self _rejected.
Proof. unfold _rejected, close. pose proof keeps__cleanup. keeps. Qed.

Lemma keeps__upload_complete version : keeps_self (_upload_complete version).
Proof. unfold _upload_complete, getitem. keeps. Qed.

Lemma keeps_run (t : UploadThread) :
  (∀ version, keeps_self (_callback t version)) → keeps_self (run t).
Proof.
  intros Hcb. unfold run, log_info, shotgun_create, shotgun_upload, getitem,
    execute_in_main_thread. keeps.
Qed.

Lemma keeps_start (t : UploadThread) :
  (∀ version, keeps_self (_callback t version)) → keeps_self (start t).
Proof. intros Hcb. pose proof (keeps_run t Hcb). unfold start. keeps. Qed.

Lemma keeps__upload : keeps_self _upload.
Proof.
  unfold _upload, close, busy, os_path_basename_arg.
  pose proof keeps__upload_complete. pose proof keeps_start.
  keeps.
Qed.

(** C7. The outcome of a capture attempt is one record of exactly the
    seven fields.  [execute] makes one capture attempt (at most one
    playblast), and the record the action holds afterwards is the one
    record that attempt returned.  No other operation replaces or alters
    it: validation, clean-up, rejection, upload, the worker and its
    callback, and the buttons all leave the action, and so its record,
    as they found it. *)
Theorem record_created_once_never_changed :
  (∀ q : Quicktime,
     q = {| success := success q; error_msg := error_msg q;
            frame_count := frame_count q; frame_range := frame_range q;
            first_frame := first_frame q; last_frame := last_frame q;
            path := path q |})
  ∧ (∀ s, ∃ quicktime_path record s1 ev s' log,
       _generate_quicktime quicktime_path s = (Ok record, s1, ev)
       ∧ execute s = (Ok (), s', log)
       ∧ _quicktime (self s') = Some record
       ∧ (count is_playblast log ≤ 1)%nat)
  ∧ keeps_self _validate_quicktime
  ∧ keeps_self _cleanup
  ∧ keeps_self _rejected
  ∧ keeps_self _upload
  ∧ (∀ version, keeps_self (_upload_complete version))
  ∧ (∀ data,
       keeps_self (run (mkUploadThread data (λ v, _upload_complete v)))
       ∧ keeps_self (start (mkUploadThread data (λ v, _upload_complete v))))
  ∧ (∀ c, keeps_self (click c)).
Proof.
  split; [by intros []|]. split.
  { intros s.
    destruct (generate_cases s) as (p & record & x & ev & _ & Hgen & _ & Hg).
    destruct (execute_cases s) as (p' & record' & x' & ev' & Hg' & Hcap & Hex).
    rewrite Hg in Hg'. injection Hg' as <- <- <- Hev.
    apply app_inv_tail in Hev as <-.
    destruct (Captured_playblast _ _ _ Hcap) as [_ Hcount].
    assert (count is_playblast
              (EvShowBusy (_name (self s)) "<br>Generating quicktime..."
               :: ev ++ [EvClearBusy]) = count is_playblast ev) as Hsame.
    { unfold count. cbn. rewrite List.filter_app. cbn. by rewrite app_nil_r. }
    destruct (valid record x);
      eexists p, record, _, ev, _, _;
      (split; [exact Hgen|]); (split; [exact Hex|]); (split; [done|]);
      unfold count in *; rewrite List.filter_app, length_app; cbn in *; lia. }
  split; [apply keeps__validate_quicktime|].
  split; [apply keeps__cleanup|].
  split; [apply keeps__rejected|].
  split; [apply keeps__upload|].
  split; [apply keeps__upload_complete|].
  split.
  { intros data. split; [apply keeps_run | apply keeps_start];
      intros v; apply keeps__upload_complete. }
  intros []; [apply keeps__upload | apply keeps__rejected].
Qed.

(** *** The order of the steps *)


(** * More of the code *)

(** Reads a membership in a concrete log. *)
Ltac in_log H :=
  repeat first
    [ apply elem_of_nil in H; destruct H
    | apply elem_of_cons in H as [H|H]; [try discriminate; simplify_eq|] ].

(** Closes a goal that follows from a membership in a concrete log. *)
Ltac by_log :=
  intros; match goal with H : _ ∈ _ |- _ => by in_log H end.

(** *** One path, resolved once *)

(** [execute] resolves the movie path once, before the capture: every
    playblast of its log writes to that path, a directory is created
    only for it, the confirmation dialog is given it, and the stored
    record has it or no path. *)
Theorem path_resolved_once (s : St) :
  ∃ p s' log,
    _get_quicktime_path s = (Ok p, s, [])
    ∧ execute s = (Ok (), s', log)
    ∧ (∀ args, EvPlayblast args ∈ log → filename args = p)
    ∧ (∀ d, EvMakedirs d ∈ log → d = os_path_dirname p)
    ∧ (∀ t q k, EvShowDialog t (QuickReviewConfirmWidget q) k ∈ log → q = p)
    ∧ ∃ record,
        _quicktime (self s') = Some record
        ∧ (path record = None ∨ path record = Some p).
Proof.
  destruct (generate_cases s) as (p & record & x & ev & Hpath & _ & _ & Hg).
  destruct (execute_cases s) as (p' & record' & x' & ev' & Hg' & Hcap & Hex).
  rewrite Hg in Hg'. injection Hg' as <- <- <- Hev.
  apply app_inv_tail in Hev as <-.
  exists p. destruct (valid record x);
    eexists _, _; (split; [exact Hpath|]); (split; [exact Hex|]);
    destruct Hcap as [msg|made ok em first last [-> | ->] Hok]; cbn;
    (repeat split; [by_log..|]);
    eexists; (split; [reflexivity|]); cbn; auto.
Qed.

(** *** The capture attempt *)

(** [_generate_quicktime] creates the directory only when it is missing.
    When it exists, nothing is created and the playblast runs once.
    When it is missing, [os.makedirs] is the first call, made once; if
    it fails the attempt ends there, with its message in the record and
    no playblast; if it succeeds the playblast runs once. *)
Theorem makedirs_only_when_missing (quicktime_path : string) (s : St) :
  ∃ record s' log,
    _generate_quicktime quicktime_path s = (Ok record, s', log)
    ∧ (os_path_exists (os_path_dirname quicktime_path) (ext s) = true →
       count is_makedirs log = 0%nat ∧ count is_playblast log = 1%nat)
    ∧ (os_path_exists (os_path_dirname quicktime_path) (ext s) = false →
       ∃ rest,
         log = EvMakedirs (os_path_dirname quicktime_path) :: rest
         ∧ count is_makedirs rest = 0%nat
         ∧ match host_makedirs (os_path_dirname quicktime_path) (ext s) with
           | (Some msg, x) =>
               rest = [] ∧ ext s' = x
               ∧ success record = false ∧ error_msg record = Some msg
               ∧ path record = None
           | (None, _) => count is_playblast rest = 1%nat
           end).
Proof.
  unfold _generate_quicktime. unfold_m.
  destruct (os_path_exists _ _) eqn:Hdir; cbn.
  - host_cases; cbn; eexists _, _, _; (split; [reflexivity|]);
      (split; [done|]); intros [=].
  - destruct (host_makedirs _ _) as [[msg|] x1] eqn:Hmk; cbn.
    + eexists _, _, _. split; [reflexivity|]. split; [intros [=]|].
      intros _. by exists [].
    + host_cases; cbn; eexists _, _, _; (split; [reflexivity|]);
        (split; [intros [=]|]); intros _; by eexists [_].
Qed.

(** A record and the playblast that made it agree: [error_msg] is
    [None] exactly when [success] is true, and a playblast in the events
    was asked for the record's first and last frame and for its path,
    overwriting, off screen and without a viewer. *)
Theorem record_matches_playblast (quicktime_path : string) (s : St)
    (record : Quicktime) (s' : St) (ev : list Event) :
  _generate_quicktime quicktime_path s = (Ok record, s', ev) →
  (success record = true ↔ error_msg record = None)
  ∧ ∀ args,
      EvPlayblast args ∈ ev →
      first_frame record = Some (startTime args)
      ∧ last_frame record = Some (endTime args)
      ∧ path record = Some (filename args)
      ∧ forceOverwrite args = true
      ∧ offScreen args = true
      ∧ viewer args = false.
Proof.
  intros Hgen.
  destruct (_generate_quicktime_cases quicktime_path s)
    as (record' & x & ev' & Hgen' & Hcap).
  rewrite Hgen in Hgen'. injection Hgen' as <- _ <-.
  destruct Hcap as [msg|made ok em first last [-> | ->] Hok]; cbn;
    (split; [done|]); by_log.
Qed.

(** *** Validation *)

(** The value of [_validate_quicktime] is the first falsy operand of
    its [and]-chain, or the last operand: [False] for a record whose
    [success] is false; for a successful record, [None] when the path is
    [None], the empty string when the path is empty, and otherwise the
    bool [os.path.exists] gives for the path.  So it is not always a
    bool, and it is [True] exactly for a valid record. *)
Theorem _validate_quicktime_value (s : St) (record : Quicktime) :
  _quicktime (self s) = Some record →
  ∃ v,
    _validate_quicktime s = (Ok v, s, [])
    ∧ ((∃ b, v = PyBool b)
       ∨ (success record = true ∧ path record = None ∧ v = PyNone)
       ∨ (success record = true ∧ path record = Some "" ∧ v = PyStr ""))
    ∧ (v = PyBool true ↔ valid record (ext s) = true)
    ∧ (success record = false → v = PyBool false)
    ∧ (success record = true → path record = None → v = PyNone)
    ∧ (success record = true → path record = Some "" → v = PyStr "")
    ∧ (success record = true →
       ∀ p, path record = Some p → p ≠ "" →
            v = PyBool (os_path_exists p (ext s))).
Proof.
  intros Hq. unfold _validate_quicktime, valid. unfold_m.
  destruct record as [[] em fc fr ff lf [p|]];
    repeat progress (cbn; rewrite ?Hq).
  - destruct (String.eqb_spec p "") as [->|Hp];
      repeat progress (cbn; rewrite ?Hq).
    + eexists. split; [reflexivity|]. split; [by right; right|].
      split; [done|]. repeat split; try done.
      by intros _ p [= <-] Hne.
    + eexists. split; [reflexivity|]. split; [left; by eexists|].
      split; [split; [by intros [= ->] | by intros ->]|].
      repeat split; try done.
      * intros _ [= ->]. done.
      * by intros _ q [= <-] _.
  - eexists. split; [reflexivity|]. split; [by right; left|].
    split; [done|]. repeat split; done.
  - eexists. split; [reflexivity|]. split; [left; by eexists|].
    split; [done|]. repeat split; done.
  - eexists. split; [reflexivity|]. split; [left; by eexists|].
    split; [done|]. repeat split; done.
Qed.

(** *** Before [execute] *)

(** On an action that has not executed (no record, no confirmation
    widget) the other methods touch nothing: [_cleanup] returns
    silently, and [_validate_quicktime], [_rejected] and [_upload] raise
    [AttributeError] with the state unchanged and no event. *)
Theorem before_execute (s : St) :
  _quicktime (self s) = None →
  _confirm_widget (self s) = None →
  _cleanup s = (Ok (), s, [])
  ∧ (∃ e, _validate_quicktime s = (Raise e, s, [])
          ∧ exc_class e = AttributeError)
  ∧ (∃ e, _rejected s = (Raise e, s, []) ∧ exc_class e = AttributeError)
  ∧ (∃ e, _upload s = (Raise e, s, []) ∧ exc_class e = AttributeError).
Proof.
  intros Hq Hw. repeat split.
  - unfold _cleanup. unfold_m. cbn. by rewrite Hq.
  - unfold _validate_quicktime. unfold_m. cbn. rewrite Hq. by eexists.
  - unfold _rejected, _cleanup. unfold_m. cbn. rewrite Hq. cbn.
    rewrite Hw. by eexists.
  - unfold _upload. unfold_m. cbn. rewrite Hw. by eexists.
Qed.

(** *** [execute] *)

(** [execute] and the confirmation widget it leaves. *)
Lemma execute_shows_one_dialog_aux (s : St) :
  ∃ s' log,
    execute s = (Ok (), s', log)
    ∧ dialogs s' = S (dialogs s)
    ∧ count is_close log = 0%nat
    ∧ _confirm_widget (self s')
      = if existsb is_confirm_dialog log then Some (dialogs s)
        else _confirm_widget (self s).
Proof.
  destruct (execute_cases s) as (p & record & x & ev & _ & Hcap & Hex).
  destruct (valid record x);
    eexists _, _; (split; [exact Hex|]);
    by destruct Hcap as [msg|made ok em first last [-> | ->] Hok].
Qed.

(** Every [execute] ends by showing exactly one dialog, the error
    dialog or the confirmation dialog and never both, under the name of
    the action; it closes no dialog, removes no file and starts no
    worker.  The confirmation widget is replaced exactly when the
    confirmation dialog is shown. *)
Theorem execute_shows_one_dialog (s : St) :
  ∃ s' log,
    execute s = (Ok (), s', log)
    ∧ count is_dialog log = 1%nat
    ∧ dialogs s' = S (dialogs s)
    ∧ existsb is_error_dialog log = negb (existsb is_confirm_dialog log)
    ∧ (∀ t w k, EvShowDialog t w k ∈ log →
                t = _name (self s) ∧ k = dialogs s)
    ∧ count is_close log = 0%nat
    ∧ count is_remove log = 0%nat
    ∧ count is_thread_start log = 0%nat
    ∧ _name (self s') = _name (self s)
    ∧ _confirm_widget (self s')
      = if existsb is_confirm_dialog log then Some (dialogs s)
        else _confirm_widget (self s).
Proof.
  destruct (execute_cases s) as (p & record & x & ev & _ & Hcap & Hex).
  destruct (valid record x);
    eexists _, _; (split; [exact Hex|]);
    destruct Hcap as [msg|made ok em first last [-> | ->] Hok]; cbn;
    repeat split; try done; by_log.
Qed.

(** *** [_upload] *)

(** With the confirmation widget but without a record, or with a record
    that has no path, [_upload] closes the widget, shows and clears the
    busy indicator, and raises; nothing is sent and no worker starts. *)
Theorem _upload_without_path (s : St) (w : nat) :
  _confirm_widget (self s) = Some w →
  (_quicktime (self s) = None
   ∨ ∃ record, _quicktime (self s) = Some record ∧ path record = None) →
  ∃ e,
    _upload s
    = (Raise e, s,
       [EvClose w;
        EvShowBusy (_name (self s))
          "<br>Uploading quicktime for newly created version...";
        EvClearBusy])
    ∧ (_quicktime (self s) = None → exc_class e = AttributeError).
Proof.
  intros Hw [Hq|(record & Hq & Hp)]; unfold _upload; unfold_m;
    repeat progress (cbn; rewrite ?Hw, ?Hq, ?Hp); by eexists.
Qed.

Lemma version_data_code record code current_user notes x :
  version_data record code current_user notes x !! "code"
  = Some (PyStr code).
Proof.
  unfold version_data. destruct (truthy (context_task x)); by simplify_map_eq.
Qed.

(** The rest of the payload that [_upload] hands to the create call:
    the user and the creator are both the current user, the description
    is the notes typed in the confirmation widget, entity and project
    are the context's, the four frame fields are the record's, and there
    is no key beyond these, ["code"], ["sg_path_to_movie"] and, for a
    truthy task, ["sg_task"]. *)
Theorem _upload_payload_fields (s : St) (w : nat) (record : Quicktime)
    (p : string) :
  _confirm_widget (self s) = Some w →
  _quicktime (self s) = Some record →
  path record = Some p →
  ∃ data s' before after,
    _upload s = (Ok (), s', before ++ [EvCreate "Version" data] ++ after)
    ∧ existsb is_create before = false
    ∧ data !! "user" = Some (get_current_user (ext s))
    ∧ data !! "created_by" = Some (get_current_user (ext s))
    ∧ data !! "description" = Some (PyStr (widget_notes w (ext s)))
    ∧ data !! "entity" = Some (context_entity (ext s))
    ∧ data !! "project" = Some (context_project (ext s))
    ∧ data !! "frame_count" = Some (of_opt PyInt (frame_count record))
    ∧ data !! "frame_range" = Some (of_opt PyStr (frame_range record))
    ∧ data !! "sg_first_frame" = Some (of_opt PyInt (first_frame record))
    ∧ data !! "sg_last_frame" = Some (of_opt PyInt (last_frame record))
    ∧ (data !! "sg_task" = Some (context_task (ext s))
       ∨ data !! "sg_task" = None)
    ∧ dom data ⊆ {[ "code"; "user"; "entity"; "project"; "created_by";
                    "description"; "frame_count"; "frame_range";
                    "sg_first_frame"; "sg_last_frame"; "sg_path_to_movie";
                    "sg_task" ]}.
Proof.
  intros Hw Hq Hp.
  destruct (_upload_cases s w record p Hw Hq Hp)
    as (x & k & log & Hup & Hworked).
  destruct (Worked_create _ _ _ _ _ Hworked) as [rest ->].
  eexists _, _, [_; _; _; _; _], rest. split; [exact Hup|].
  split; [done|].
  unfold version_data. destruct (truthy (context_task (ext s)));
    repeat split; try (by simplify_map_eq);
    try (left; by simplify_map_eq); try (right; by simplify_map_eq);
    rewrite !dom_insert, dom_empty; set_solver.
Qed.


(** *** The worker *)

(** The worker reads the movie path only after the create call: for a
    payload without ["sg_path_to_movie"], the version is created on the
    server, then [run] raises [KeyError], and no upload is attempted. *)
Theorem run_without_movie_path (t : UploadThread) (s : St)
    (version : gmap string PyVal) (x : Ext) :
  _data t !! "sg_path_to_movie" = None →
  host_create "Version" (_data t) (ext s) = (inr version, x) →
  run t s
  = (Raise (mkExc KeyError "sg_path_to_movie"),
     mkSt x (self s) (dialogs s),
     [EvLogInfo ("Creating Shotgun version: " +:+ str_dict (_data t));
      EvCreate "Version" (_data t)]).
Proof.
  intros Hp Hcr. unfold run. unfold_m. cbn. rewrite Hcr. cbn.
  by rewrite Hp.
Qed.

(** *** Executing again *)

(** The action holds one confirmation widget.  When [execute] runs
    again and shows a second confirmation dialog, the first is never
    closed: the action now holds the second, and a rejection, from
    whichever dialog, closes the second and leaves the first open. *)
Theorem execute_again_rebinds (world world' : Ext → Ext) (s s1 s2 : St)
    (log1 log2 : list Event) :
  execute s = (Ok (), s1, log1) →
  existsb is_confirm_dialog log1 = true →
  execute (mkSt (world (ext s1)) (self s1) (dialogs s1))
  = (Ok (), s2, log2) →
  existsb is_confirm_dialog log2 = true →
  _confirm_widget (self s1) = Some (dialogs s)
  ∧ _confirm_widget (self s2) = Some (S (dialogs s))
  ∧ count is_close (log1 ++ log2) = 0%nat
  ∧ ∃ s3 log3,
      _rejected (mkSt (world' (ext s2)) (self s2) (dialogs s2))
      = (Ok (), s3, log3)
      ∧ last log3 = Some (EvClose (S (dialogs s)))
      ∧ EvClose (dialogs s) ∉ log3.
Proof.
  intros Hex1 Hshown1 Hex2 Hshown2.
  destruct (execute_shows_one_dialog_aux s) as (s1' & log1' & Hex1' & Hd1 & Hc1 & Hw1).
  rewrite Hex1 in Hex1'. injection Hex1' as <- <-.
  rewrite Hshown1 in Hw1.
  destruct (execute_shows_one_dialog_aux
              (mkSt (world (ext s1)) (self s1) (dialogs s1)))
    as (s2' & log2' & Hex2' & Hd2 & Hc2 & Hw2).
  rewrite Hex2 in Hex2'. injection Hex2' as <- <-.
  rewrite Hshown2 in Hw2. cbn in Hd2, Hw2. rewrite Hd1 in Hw2.
  split; [done|]. split; [done|]. split.
  { unfold count in *. rewrite List.filter_app, length_app. lia. }
  destruct (execute_confirm_rejectable _ _ _ Hex2 Hshown2)
    as (_ & record & p & Hq & Hp).
  pose proof (_rejected_cases
                (mkSt (world' (ext s2)) (self s2) (dialogs s2))
                (S (dialogs s)) Hw2) as Hrej.
  cbn [self ext dialogs] in Hrej. rewrite Hq, Hp in Hrej.
  destruct (host_remove p (world' (ext s2))) as [[msg|] x];
    eexists _, _; (split; [exact Hrej|]); (split; [done|]);
    intros H; in_log H; lia.
Qed.

(** When [execute] runs again and the capture cannot create its
    directory, the action keeps the earlier confirmation widget but now
    holds a record without a path: rejecting the earlier dialog raises
    [TypeError] from [os.remove], removes nothing and leaves the dialog
    open. *)
Theorem failed_execute_leaves_stale_dialog (world : Ext → Ext) (s s' : St)
    (w : nat) (log : list Event) (record : Quicktime) :
  _confirm_widget (self s) = Some w →
  execute s = (Ok (), s', log) →
  _quicktime (self s') = Some record →
  path record = None →
  _confirm_widget (self s') = Some w
  ∧ existsb is_confirm_dialog log = false
  ∧ ∃ e,
      _rejected (mkSt (world (ext s')) (self s') (dialogs s'))
      = (Raise e, mkSt (world (ext s')) (self s') (dialogs s'), [])
      ∧ exc_class e = TypeError.
Proof.
  intros Hw Hex Hq Hp.
  destruct (execute_cases s) as (p & record' & x & ev & _ & Hcap & Hex').
  rewrite Hex in Hex'.
  destruct (valid record' x) eqn:Hvalid.
  { injection Hex' as -> _. cbn in Hq. injection Hq as ->.
    apply valid_iff in Hvalid as (_ & q & Hq' & _). congruence. }
  injection Hex' as -> ->. cbn in Hq. injection Hq as ->.
  split; [done|]. split.
  { by destruct Hcap as [msg|made ok em first last [-> | ->] Hok]. }
  pose proof (_rejected_cases
                (mkSt (world x)
                   {| _name := _name (self s); _quicktime := Some record;
                      _confirm_widget := _confirm_widget (self s) |}
                   (S (dialogs s))) w Hw) as Hrej.
  cbn [self ext dialogs _quicktime] in Hrej. by rewrite Hp in Hrej.
Qed.

(** *** Whole uses *)

(** The log of one use of the action is as [Used] says. *)
Lemma session_used (world : Ext → Ext) (user : option Click) (s : St) :
  ∃ s' log,
    session world user s = (Ok (), s', log)
    ∧ Used (_name (self s)) (dialogs s) user log.
Proof.
  destruct (execute_cases s) as (p & record & x & ev & Hgen & Hcap & Hex).
  unfold session. rewrite Hex.
  destruct (valid record x) eqn:Hvalid.
  - assert (∃ made args,
              (made = [] ∨ made = [EvMakedirs (os_path_dirname p)])
              ∧ ev = made ++ [EvPlayblast args]
              ∧ filename args = p
              ∧ path record = Some p) as (made & args & Hmade & -> & Hf & Hp).
    { destruct Hcap; [by unfold valid in Hvalid|]. by eexists _, _. }
    assert (existsb is_confirm_dialog
              ((EvShowBusy (_name (self s)) "<br>Generating quicktime..."
                :: (made ++ [EvPlayblast args]) ++ [EvClearBusy])
               ++ [EvShowDialog (_name (self s)) (QuickReviewConfirmWidget p)
                     (dialogs s)]) = true) as ->.
    { rewrite existsb_app. cbn. apply orb_true_r. }
    destruct user as [[]|].
    + destruct (_upload_cases
                  (mkSt (world x)
                     {| _name := _name (self s); _quicktime := Some record;
                        _confirm_widget := Some (dialogs s) |} (S (dialogs s)))
                  (dialogs s) record p eq_refl eq_refl Hp)
        as (x' & k & log & Hup & Hworked).
      cbn [click ext self dialogs]. rewrite Hup.
      eexists _, _. split; [reflexivity|].
      rewrite <- (app_assoc _ [EvShowDialog _ _ _]).
      apply (used_valid _ _ _ p made args); [done..|].
      eapply submitted; [|exact Hworked]. apply version_data_code.
    + pose proof (_rejected_cases
                    (mkSt (world x)
                       {| _name := _name (self s); _quicktime := Some record;
                          _confirm_widget := Some (dialogs s) |}
                       (S (dialogs s)))
                    (dialogs s) eq_refl) as Hrej.
      cbn [self _quicktime ext dialogs] in Hrej. rewrite Hp in Hrej.
      cbn [click ext self dialogs].
      destruct (host_remove p (world x)) as [[msg|] x'];
        rewrite Hrej; eexists _, _; (split; [reflexivity|]);
        rewrite <- (app_assoc _ [EvShowDialog _ _ _]);
        (apply (used_valid _ _ _ p made args); [done..|]); apply cancelled; auto.
    + eexists _, _. split; [reflexivity|].
      rewrite <- (app_nil_r (_ ++ [EvShowDialog _ _ _])).
      rewrite <- (app_assoc _ [EvShowDialog _ _ _]).
      apply (used_valid _ _ _ p made args); [done..|]. apply left_open.
  - assert (existsb is_confirm_dialog
              ((EvShowBusy (_name (self s)) "<br>Generating quicktime..."
                :: ev ++ [EvClearBusy])
               ++ [EvLogError (message (error_msg record));
                   EvShowDialog (_name (self s))
                     (ErrorWidget (summary (_name (self s)))
                        (message (error_msg record)))
                     (dialogs s)]) = false) as ->.
    { destruct Hcap as [msg|made ok em first last [-> | ->] Hok]; done. }
    destruct user as [[]|]; eexists _, _; (split; [reflexivity|]);
      by apply (used_invalid _ _ _ p record ev).
Qed.

(** Splits a use of the action into its concrete logs. *)
Ltac used_shapes H :=
  let Hcap := fresh "Hcap" in
  let Hmade := fresh "Hmade" in
  let Hclick := fresh "Hclick" in
  let Hworked := fresh "Hworked" in
  destruct H as [? ? ? Hcap | ? ? ? ? Hmade ? Hclick];
  [ destruct Hcap as [?|? ? ? ? ? [-> | ->] ?]
  | destruct Hmade as [-> | ->];
    (destruct Hclick as [|? [-> | ->]|? ? ? Hworked];
     [ | | | destruct Hworked ]) ].

(** The busy indicator in one use of the action: it is off when the use
    ends and off when the worker starts, and it is not shown again while
    the worker creates the version and uploads the movie. *)
Theorem busy_off_during_upload (world : Ext → Ext) (user : option Click)
    (s : St) (before : bool) :
  ∃ s' log,
    session world user s = (Ok (), s', log)
    ∧ busy_shown before log = false
    ∧ busy_shown before (before_first is_thread_start log) = false
    ∧ count is_busy (after_first is_thread_start log) = 0%nat
    ∧ Precedes is_busy is_create log
    ∧ (count is_busy log = 2 ∨ count is_busy log = 4)%nat.
Proof.
  destruct (session_used world user s) as (s' & log & Hs & Hused).
  exists s', log. split; [exact Hs|].
  used_shapes Hused; cbn; repeat split;
    try done; try (apply preceded_by_spec; reflexivity); auto.
Qed.

(** What a use of the action can do depends on the button: a file is
    removed only after cancel, the server is called only after submit,
    and a dialog is closed only after one of the two.  Submit never
    removes the movie, whatever becomes of the upload, and cancel never
    calls the server; each of removal, close, create and upload happens
    at most once. *)
Theorem buttons_are_exclusive (world : Ext → Ext) (user : option Click)
    (s : St) :
  ∃ s' log,
    session world user s = (Ok (), s', log)
    ∧ (existsb is_remove log = true → user = Some Cancel)
    ∧ (existsb is_create log = true → user = Some Submit)
    ∧ (existsb is_upload log = true → user = Some Submit)
    ∧ (existsb is_close log = true → user ≠ None)
    ∧ (count is_remove log ≤ 1)%nat
    ∧ (count is_close log ≤ 1)%nat
    ∧ (count is_create log ≤ 1)%nat
    ∧ (count is_upload log ≤ 1)%nat
    ∧ (count is_dialog log ≤ 2)%nat.
Proof.
  destruct (session_used world user s) as (s' & log & Hs & Hused).
  exists s', log. split; [exact Hs|].
  used_shapes Hused; cbn; repeat split; done || lia.
Qed.

End Properties.

Section WidgetProperties.
Context `{desktop : Desktop}.

(** *** widgets.py *)

(** The name the confirmation dialog shows is the name the version
    gets, but for the extension: in a use of the action that reaches the
    create call, the payload's ["code"] is the text of the dialog's
    [version_name] label with its extension removed. *)
Theorem shown_name_is_version_code (world : Ext → Ext) (user : option Click)
    (s : St) :
  ∃ s' log,
    session world user s = (Ok (), s', log)
    ∧ ∀ t q k entity_type data,
        EvShowDialog t (QuickReviewConfirmWidget q) k ∈ log →
        EvCreate entity_type data ∈ log →
        data !! "code"
        = Some (PyStr (os_path_splitext
                         (version_name (ConfirmWidget__init__ q))).1).
Proof.
  destruct (session_used world user s) as (s' & log & Hs & Hused).
  exists s', log. split; [exact Hs|].
  intros t q k entity_type data Hdialog Hcreate.
  destruct Hused as [? ? ? Hcap | ? ? ? ? Hmade ? Hclick].
  - destruct Hcap as [?|? ? ? ? ? [-> | ->] ?];
      cbn in Hcreate; exfalso; repeat
        (apply elem_of_cons in Hcreate as [Hcreate|Hcreate];
         [discriminate|]); by apply elem_of_nil in Hcreate.
  - destruct Hmade as [-> | ->];
      destruct Hclick as [|? [-> | ->]|? ? Hcode Hworked];
      try destruct Hworked;
      cbn in Hdialog, Hcreate;
      repeat (apply elem_of_cons in Hdialog as [Hdialog|Hdialog];
              [try discriminate; simplify_eq|]);
      try (by apply elem_of_nil in Hdialog);
      repeat (apply elem_of_cons in Hcreate as [Hcreate|Hcreate];
              [try discriminate; simplify_eq|]);
      try (by apply elem_of_nil in Hcreate);
      exact Hcode.
Qed.

(** [_open_in_fs] launches at most one command.  On the platforms
    [linux2], [darwin] and [win32] it launches exactly one, which ends
    with the path in double quotes; on any other platform it raises
    before launching anything. *)
Theorem _open_in_fs_launches (widget : ConfirmWidget) (path : string)
    (x : Ext) :
  ∃ r x' log,
    _open_in_fs widget path x = (r, x', log)
    ∧ (sys_platform = "linux2" ∨ sys_platform = "darwin"
       ∨ sys_platform = "win32" →
       ∃ before rest,
         log = EvSystem (before +:+ dq +:+ path +:+ dq) :: rest
         ∧ (∀ cmd, EvSystem cmd ∈ rest → False))
    ∧ (sys_platform ≠ "linux2" → sys_platform ≠ "darwin"
       → sys_platform ≠ "win32" →
       log = [] ∧ x' = x ∧ ∃ e, r = Raise e).
Proof.
  unfold _open_in_fs, launcher.
  destruct (String.eqb_spec sys_platform "linux2") as [Hl|Hl];
    [|destruct (String.eqb_spec sys_platform "darwin") as [Hd|Hd];
      [|destruct (String.eqb_spec sys_platform "win32") as [Hw|Hw]]].
  4: { eexists _, _, _. split; [reflexivity|]. split; [naive_solver|].
       intros _ _ _. by eauto. }
  all: destruct (host_system _ x) as [exit_code x'];
    destruct (exit_code =? 0); [|destruct (_engine widget)];
    eexists _, _, _; (split; [reflexivity|]); (split; [|done]); intros _.
  1-3: exists "xdg-open ".
  4-6: exists "open ".
  7-9: exists ("cmd.exe /C start " +:+ dq +:+ "Folder" +:+ dq +:+ " ").
  all: eexists; (split; [reflexivity|]); intros cmd H;
    repeat (apply elem_of_cons in H as [H|H]; [discriminate|]);
    by apply elem_of_nil in H.
Qed.

(** A launcher that fails is not reported.  For a widget as
    [__init__] builds it, [_open_in_fs] never logs an error: when the
    command exits with a status other than 0, the attempt to log raises
    [AttributeError] instead, after the command has run. *)
Theorem _open_in_fs_failure_unreported (quicktime_path path : string)
    (x : Ext) :
  ∃ r x' log,
    _open_in_fs (ConfirmWidget__init__ quicktime_path) path x = (r, x', log)
    ∧ (∀ msg, EvEngineLogError msg ∈ log → False)
    ∧ ∀ cmd status x1,
        launcher sys_platform path = Some cmd →
        host_system cmd x = (status, x1) →
        status ≠ 0 →
        log = [EvSystem cmd] ∧ x' = x1
        ∧ ∃ e, r = Raise e ∧ exc_class e = AttributeError.
Proof.
  unfold _open_in_fs.
  destruct (launcher sys_platform path) as [cmd|].
  - destruct (host_system cmd x) as [status x1] eqn:Hsys.
    destruct (Z.eqb_spec status 0) as [->|Hne]; cbn;
      eexists _, _, _; (split; [reflexivity|]); split.
    + intros msg H. apply elem_of_cons in H as [H|H]; [discriminate|].
      by apply elem_of_nil in H.
    + intros c st x2 [= <-] Hsys' Hst. rewrite Hsys in Hsys'.
      by injection Hsys' as <- <-.
    + intros msg H. apply elem_of_cons in H as [H|H]; [discriminate|].
      by apply elem_of_nil in H.
    + intros c st x2 [= <-] Hsys' _. rewrite Hsys in Hsys'.
      injection Hsys' as <- <-. by eauto.
  - eexists _, _, _. split; [reflexivity|]. split.
    + intros msg H. by apply elem_of_nil in H.
    + by intros.
Qed.

End WidgetProperties.

(** * The properties on concrete runs *)

Section Runs.
Import Posix.
Import PosixDesktop.



Lemma frame_fields_consistent_witness :
  _generate_quicktime movie (fresh world0)
  = (Ok record0,
     mkSt (with_files ({[movie]} ∪ files world0) world0) __init__ 0,
     [EvPlayblast playblast0])
  ∧ frame_count record0 = Some (24 - 1 + 1)
  ∧ frame_range record0 = Some (pretty 1 +:+ "-" +:+ pretty 24)
  ∧ path record0 = Some movie.
Proof.
  assert (_generate_quicktime movie (fresh world0)
          = (Ok record0,
             mkSt (with_files ({[movie]} ∪ files world0) world0) __init__ 0,
             [EvPlayblast playblast0])) as H by reflexivity.
  split; [exact H|].
  exact (frame_fields_consistent movie (fresh world0) record0 _ _ 1 24
           H eq_refl eq_refl).
Defined.

Lemma _validate_quicktime_iff_witness :
  _quicktime (self (confirming world0)) = Some record0
  ∧ ∃ v, _validate_quicktime (confirming world0)
         = (Ok v, confirming world0, [])
         ∧ (truthy v = true ↔
            success record0 = true
            ∧ ∃ p, path record0 = Some p ∧ p ≠ ""
                   ∧ os_path_exists p (ext (confirming world0)) = true).
Proof.
  split; [reflexivity|].
  exact (_validate_quicktime_iff (confirming world0) record0 eq_refl).
Defined.

Lemma execute_validation_failure_witness :
  generate (fresh world_no_movie)
  = (Ok movie, captured world_no_movie,
     [EvShowBusy "Quick Review" "<br>Generating quicktime...";
      EvPlayblast playblast0; EvClearBusy])
  ∧ _validate_quicktime (captured world_no_movie)
    = (Ok (PyBool false), captured world_no_movie, [])
  ∧ ∃ s2 log,
      execute (fresh world_no_movie) = (Ok (), s2, log)
      ∧ log = [EvShowBusy "Quick Review" "<br>Generating quicktime...";
               EvPlayblast playblast0; EvClearBusy]
              ++ [EvLogError (message None);
                  EvShowDialog "Quick Review"
                    (ErrorWidget (summary "Quick Review") (message None)) 0]
      ∧ (∃ before after,
           message None = before +:+ str_opt None +:+ after)
      ∧ ext s2 = world_no_movie
      ∧ self s2 = self (captured world_no_movie)
      ∧ (count is_playblast log ≤ 1)%nat
      ∧ existsb is_confirm_dialog log = false
      ∧ existsb is_thread_start log = false
      ∧ existsb is_create log = false
      ∧ existsb is_upload log = false
      ∧ existsb is_remove log = false.
Proof.
  assert (generate (fresh world_no_movie)
          = (Ok movie, captured world_no_movie,
             [EvShowBusy "Quick Review" "<br>Generating quicktime...";
              EvPlayblast playblast0; EvClearBusy])) as Hgen by reflexivity.
  assert (_validate_quicktime (captured world_no_movie)
          = (Ok (PyBool false), captured world_no_movie, [])) as Hv
    by reflexivity.
  split; [exact Hgen|]. split; [exact Hv|].
  exact (execute_validation_failure (fresh world_no_movie)
           (captured world_no_movie) (captured world_no_movie) movie
           _ [] record0 (PyBool false) Hgen eq_refl Hv eq_refl).
Defined.


Lemma _upload_payload_witness :
  _confirm_widget (self (confirming world0)) = Some 0%nat
  ∧ _quicktime (self (confirming world0)) = Some record0
  ∧ path record0 = Some movie
  ∧ ∃ data s' before after,
      _upload (confirming world0)
      = (Ok (), s', before ++ [EvCreate "Version" data] ++ after)
      ∧ existsb is_create before = false
      ∧ data !! "code"
        = Some (PyStr (os_path_splitext (os_path_basename movie)).1)
      ∧ data !! "sg_path_to_movie" = Some (PyStr movie)
      ∧ (is_Some (data !! "sg_task")
         ↔ truthy (context_task (ext (confirming world0))) = true).
Proof.
  repeat (split; [reflexivity|]).
  exact (_upload_payload (confirming world0) 0 record0 movie
           eq_refl eq_refl eq_refl).
Defined.

(** The claim that every run makes the upload call and calls the
    callback fails: when the server refuses the create call, the
    exception ends the run after the create call. *)
Lemma run_one_shot_counterexample :
  run thread0 (fresh world_create_fails)
  = (Raise (mkExc OtherException "Connection refused"),
     fresh world_create_fails,
     [EvLogInfo "Creating Shotgun version: {...}";
      EvCreate "Version" (_data thread0)])
  ∧ count is_upload
      [EvLogInfo "Creating Shotgun version: {...}";
       EvCreate "Version" (_data thread0)] = 0%nat
  ∧ count is_main_thread
      [EvLogInfo "Creating Shotgun version: {...}";
       EvCreate "Version" (_data thread0)] = 0%nat.
Proof. repeat split; reflexivity. Qed.

Lemma run_one_shot_witness :
  host_create "Version" (_data thread0) (ext (fresh world0))
  = (inr version0, world0)
  ∧ version0 !! "id" = Some (PyInt 101)
  ∧ _data thread0 !! "sg_path_to_movie" = Some (PyStr movie)
  ∧ host_upload "Version" (PyInt 101) (PyStr movie) "sg_uploaded_movie" world0
    = (None, world0)
  ∧ (∃ r s' pre post,
      run thread0 (fresh world0) = (r, s', pre ++ post)
      ∧ count is_create pre = 1%nat
      ∧ EvUpload "Version" (PyInt 101) (PyStr movie) "sg_uploaded_movie" ∈ pre
      ∧ EvMainThread version0 ∈ pre
      ∧ _upload_complete version0 (fresh world0) = (r, s', post))
  ∧ host_create "Version" (_data thread0) (ext (fresh world_create_fails))
    = (inl (mkExc OtherException "Connection refused"), world_create_fails)
  ∧ (∃ s' pre,
      run thread0 (fresh world_create_fails)
      = (Raise (mkExc OtherException "Connection refused"), s', pre ++ [])
      ∧ count is_upload pre = 0%nat
      ∧ count is_main_thread pre = 0%nat)
  ∧ host_upload "Version" (PyInt 101) (PyStr movie) "sg_uploaded_movie"
      world_upload_fails
    = (Some (mkExc OtherException "Connection reset"), world_upload_fails)
  ∧ ∃ s' pre,
      run thread0 (fresh world_upload_fails)
      = (Raise (mkExc OtherException "Connection reset"), s', pre ++ [])
      ∧ count is_upload pre = 1%nat
      ∧ count is_main_thread pre = 0%nat.
Proof.
  assert (host_create "Version" (_data thread0) (ext (fresh world0))
          = (inr version0, world0)) as Hcr by reflexivity.
  assert (version0 !! "id" = Some (PyInt 101)) as Hid by reflexivity.
  assert (_data thread0 !! "sg_path_to_movie" = Some (PyStr movie)) as Hp
    by reflexivity.
  assert (host_upload "Version" (PyInt 101) (PyStr movie)
            "sg_uploaded_movie" world0 = (None, world0)) as Hup
    by reflexivity.
  assert (host_create "Version" (_data thread0)
            (ext (fresh world_create_fails))
          = (inl (mkExc OtherException "Connection refused"),
             world_create_fails)) as Hcr' by reflexivity.
  assert (host_create "Version" (_data thread0)
            (ext (fresh world_upload_fails))
          = (inr version0, world_upload_fails)) as Hcr'' by reflexivity.
  assert (host_upload "Version" (PyInt 101) (PyStr movie)
            "sg_uploaded_movie" world_upload_fails
          = (Some (mkExc OtherException "Connection reset"),
             world_upload_fails)) as Hup' by reflexivity.
  repeat (split; [assumption|]). split; [|split; [exact Hcr'|split; [|split; [exact Hup'|]]]].
  - destruct (run_one_shot thread0 (fresh world0))
      as (r & s' & pre & post & Hrun & Hc & _ & _ & _ & _ & _ & _ & H & _).
    destruct (H version0 world0 Hcr (PyInt 101) (PyStr movie) Hid Hp)
      as [Hupload Hmain].
    destruct (Hmain world0 Hup) as [Hm Hcb].
    exists r, s', pre, post. repeat split; assumption.
  - destruct (run_one_shot thread0 (fresh world_create_fails))
      as (r & s' & pre & post & Hrun & _ & _ & _ & _ & _ & _ & _ & _ & H & _).
    destruct (H _ _ Hcr') as (-> & _ & _ & -> & Hu & Hm).
    exists s', pre. repeat split; assumption.
  - destruct (run_one_shot thread0 (fresh world_upload_fails))
      as (r & s' & pre & post & Hrun & _ & _ & _ & _ & _ & _ & _ & _ & _ & _ & H).
    destruct (H version0 world_upload_fails Hcr'' (PyInt 101) (PyStr movie)
                _ _ Hid Hp Hup') as (-> & _ & _ & -> & Hu & Hm).
    exists s', pre. repeat split; assumption.
Defined.

(** Some whole runs. *)

Example session_submit :
  steps (session id (Some Submit) (fresh world0)).2 = [0; 1; 2; 2; 2; 3]%nat
  ∧ last (session id (Some Submit) (fresh world0)).2
    = Some (EvShowDialog "Quick Review"
              (QuickReviewSuccessWidget
                 (PyDict (<["type" := PyStr "Version"]>
                            (<["id" := PyInt 101]> ∅)))) 1).
Proof. split; reflexivity. Qed.

Example session_cancel :
  (session id (Some Cancel) (fresh world0)).2
  = [EvShowBusy "Quick Review" "<br>Generating quicktime...";
     EvPlayblast playblast0;
     EvClearBusy;
     EvShowDialog "Quick Review" (QuickReviewConfirmWidget movie) 0;
     EvRemove movie;
     EvLogInfo ("Removed unused quicktime: " +:+ movie);
     EvClose 0].
Proof. reflexivity. Qed.

Example session_upload_fails :
  steps (session id (Some Submit) (fresh world_upload_fails)).2
  = [0; 1; 2; 2; 2]%nat
  ∧ last (session id (Some Submit) (fresh world_upload_fails)).2
    = Some (EvThreadDied (mkExc OtherException "Connection reset")).
Proof. split; reflexivity. Qed.

Example execute_no_directory :
  (execute (fresh world_no_directory)).2
  = [EvShowBusy "Quick Review" "<br>Generating quicktime...";
     EvMakedirs "/proj/review";
     EvClearBusy;
     EvLogError
       (message (Some "[Errno 13] Permission denied: /proj/review"));
     EvShowDialog "Quick Review"
       (ErrorWidget (summary "Quick Review")
          (message (Some "[Errno 13] Permission denied: /proj/review")))
       0].
Proof. reflexivity. Qed.

(** Outside the states [execute] leads to: with a record that has no
    path, [os.remove(None)] raises a [TypeError] that [_cleanup] does not
    catch, and the widget is not closed. *)
Example _rejected_without_path :
  _rejected (stale_dialog world0)
  = (Raise (mkExc TypeError
              "coercing to Unicode: need string or buffer, NoneType found"),
     stale_dialog world0, []).
Proof. reflexivity. Qed.

(** More of the code, on concrete runs. *)

Lemma record_matches_playblast_witness :
  _generate_quicktime movie (fresh world_playblast_raises)
  = (Ok record_raised, fresh world_playblast_raises, [EvPlayblast playblast0])
  ∧ (success record_raised = true ↔ error_msg record_raised = None)
  ∧ ∀ args,
      EvPlayblast args ∈ [EvPlayblast playblast0] →
      first_frame record_raised = Some (startTime args)
      ∧ last_frame record_raised = Some (endTime args)
      ∧ path record_raised = Some (filename args)
      ∧ forceOverwrite args = true
      ∧ offScreen args = true
      ∧ viewer args = false.
Proof.
  assert (_generate_quicktime movie (fresh world_playblast_raises)
          = (Ok record_raised, fresh world_playblast_raises,
             [EvPlayblast playblast0])) as H by reflexivity.
  split; [exact H|].
  exact (record_matches_playblast movie (fresh world_playblast_raises)
           record_raised (fresh world_playblast_raises)
           [EvPlayblast playblast0] H).
Defined.

Lemma _validate_quicktime_value_witness :
  _quicktime (self (holding_without_path world0)) = Some record_without_path
  ∧ _validate_quicktime (holding_without_path world0)
    = (Ok PyNone, holding_without_path world0, [])
  ∧ ∃ v,
      _validate_quicktime (holding_without_path world0)
      = (Ok v, holding_without_path world0, [])
      ∧ ((∃ b, v = PyBool b)
         ∨ (success record_without_path = true
            ∧ path record_without_path = None ∧ v = PyNone)
         ∨ (success record_without_path = true
            ∧ path record_without_path = Some "" ∧ v = PyStr ""))
      ∧ (v = PyBool true
         ↔ valid record_without_path (ext (holding_without_path world0))
           = true)
      ∧ (success record_without_path = false → v = PyBool false)
      ∧ (success record_without_path = true →
         path record_without_path = None → v = PyNone)
      ∧ (success record_without_path = true →
         path record_without_path = Some "" → v = PyStr "")
      ∧ (success record_without_path = true →
         ∀ p, path record_without_path = Some p → p ≠ "" →
              v = PyBool (os_path_exists p
                            (ext (holding_without_path world0)))).
Proof.
  split; [reflexivity|].
  pose proof (_validate_quicktime_value (holding_without_path world0)
                record_without_path eq_refl) as H.
  split; [|exact H].
  destruct H as (v & Hv & _ & _ & _ & Hnone & _).
  rewrite Hv. by rewrite (Hnone eq_refl eq_refl).
Defined.

Lemma before_execute_witness :
  _quicktime (self (fresh world0)) = None
  ∧ _confirm_widget (self (fresh world0)) = None
  ∧ _cleanup (fresh world0) = (Ok (), fresh world0, [])
  ∧ (∃ e, _validate_quicktime (fresh world0) = (Raise e, fresh world0, [])
          ∧ exc_class e = AttributeError)
  ∧ (∃ e, _rejected (fresh world0) = (Raise e, fresh world0, [])
          ∧ exc_class e = AttributeError)
  ∧ (∃ e, _upload (fresh world0) = (Raise e, fresh world0, [])
          ∧ exc_class e = AttributeError).
Proof.
  split; [reflexivity|]. split; [reflexivity|].
  exact (before_execute (fresh world0) eq_refl eq_refl).
Defined.

Lemma _upload_without_path_witness :
  _confirm_widget (self (stale_dialog world0)) = Some 0%nat
  ∧ (∃ record, _quicktime (self (stale_dialog world0)) = Some record
               ∧ path record = None)
  ∧ ∃ e,
      _upload (stale_dialog world0)
      = (Raise e, stale_dialog world0,
         [EvClose 0;
          EvShowBusy "Quick Review"
            "<br>Uploading quicktime for newly created version...";
          EvClearBusy])
      ∧ (_quicktime (self (stale_dialog world0)) = None
         → exc_class e = AttributeError).
Proof.
  assert (∃ record, _quicktime (self (stale_dialog world0)) = Some record
                    ∧ path record = None) as H
    by (eexists; split; reflexivity).
  split; [reflexivity|]. split; [exact H|].
  exact (_upload_without_path (stale_dialog world0) 0 eq_refl (or_intror H)).
Defined.

Lemma _upload_payload_fields_witness :
  _confirm_widget (self (confirming world0)) = Some 0%nat
  ∧ _quicktime (self (confirming world0)) = Some record0
  ∧ path record0 = Some movie
  ∧ ∃ data s' before after,
      _upload (confirming world0)
      = (Ok (), s', before ++ [EvCreate "Version" data] ++ after)
      ∧ existsb is_create before = false
      ∧ data !! "user" = Some (get_current_user (ext (confirming world0)))
      ∧ data !! "created_by"
        = Some (get_current_user (ext (confirming world0)))
      ∧ data !! "description"
        = Some (PyStr (widget_notes 0%nat (ext (confirming world0))))
      ∧ data !! "entity" = Some (context_entity (ext (confirming world0)))
      ∧ data !! "project" = Some (context_project (ext (confirming world0)))
      ∧ data !! "frame_count" = Some (of_opt PyInt (frame_count record0))
      ∧ data !! "frame_range" = Some (of_opt PyStr (frame_range record0))
      ∧ data !! "sg_first_frame" = Some (of_opt PyInt (first_frame record0))
      ∧ data !! "sg_last_frame" = Some (of_opt PyInt (last_frame record0))
      ∧ (data !! "sg_task" = Some (context_task (ext (confirming world0)))
         ∨ data !! "sg_task" = None)
      ∧ dom data ⊆ {[ "code"; "user"; "entity"; "project"; "created_by";
                      "description"; "frame_count"; "frame_range";
                      "sg_first_frame"; "sg_last_frame"; "sg_path_to_movie";
                      "sg_task" ]}.
Proof.
  repeat (split; [reflexivity|]).
  exact (_upload_payload_fields (confirming world0) 0 record0 movie
           eq_refl eq_refl eq_refl).
Defined.


Lemma run_without_movie_path_witness :
  _data thread_without_path !! "sg_path_to_movie" = None
  ∧ host_create "Version" (_data thread_without_path) (ext (fresh world0))
    = (inr (<["type" := PyStr "Version"]>
              (<["id" := PyInt 101]> (_data thread_without_path))), world0)
  ∧ run thread_without_path (fresh world0)
    = (Raise (mkExc KeyError "sg_path_to_movie"),
       mkSt world0 (self (fresh world0)) (dialogs (fresh world0)),
       [EvLogInfo ("Creating Shotgun version: "
                   +:+ str_dict (_data thread_without_path));
        EvCreate "Version" (_data thread_without_path)]).
Proof.
  assert (_data thread_without_path !! "sg_path_to_movie" = None) as Hp
    by reflexivity.
  assert (host_create "Version" (_data thread_without_path)
            (ext (fresh world0))
          = (inr (<["type" := PyStr "Version"]>
                    (<["id" := PyInt 101]> (_data thread_without_path))),
             world0)) as Hcr by reflexivity.
  split; [exact Hp|]. split; [exact Hcr|].
  exact (run_without_movie_path thread_without_path (fresh world0) _ _ Hp Hcr).
Defined.

Lemma execute_again_rebinds_witness :
  execute (fresh world0)
  = (Ok (), confirming world0,
     [EvShowBusy "Quick Review" "<br>Generating quicktime...";
      EvPlayblast playblast0; EvClearBusy;
      EvShowDialog "Quick Review" (QuickReviewConfirmWidget movie) 0])
  ∧ execute (confirming world0)
    = (Ok (), confirming_again world0,
       [EvShowBusy "Quick Review" "<br>Generating quicktime...";
        EvPlayblast playblast0; EvClearBusy;
        EvShowDialog "Quick Review" (QuickReviewConfirmWidget movie) 1])
  ∧ _confirm_widget (self (confirming world0)) = Some 0%nat
  ∧ _confirm_widget (self (confirming_again world0)) = Some 1%nat
  ∧ ∃ s3 log3,
      _rejected (confirming_again world0) = (Ok (), s3, log3)
      ∧ last log3 = Some (EvClose 1)
      ∧ EvClose 0 ∉ log3.
Proof.
  assert (execute (fresh world0)
          = (Ok (), confirming world0,
             [EvShowBusy "Quick Review" "<br>Generating quicktime...";
              EvPlayblast playblast0; EvClearBusy;
              EvShowDialog "Quick Review" (QuickReviewConfirmWidget movie) 0]))
    as H1 by reflexivity.
  assert (execute (mkSt (id (ext (confirming world0)))
                     (self (confirming world0)) (dialogs (confirming world0)))
          = (Ok (), confirming_again world0,
             [EvShowBusy "Quick Review" "<br>Generating quicktime...";
              EvPlayblast playblast0; EvClearBusy;
              EvShowDialog "Quick Review" (QuickReviewConfirmWidget movie) 1]))
    as H2 by reflexivity.
  split; [exact H1|]. split; [exact H2|].
  destruct (execute_again_rebinds id id (fresh world0) (confirming world0)
              (confirming_again world0) _ _ H1 eq_refl H2 eq_refl)
    as (Hw1 & Hw2 & _ & Hrej).
  split; [exact Hw1|]. split; [exact Hw2|]. exact Hrej.
Defined.

Lemma failed_execute_leaves_stale_dialog_witness :
  _confirm_widget (self (confirming world_no_directory)) = Some 0%nat
  ∧ execute (confirming world_no_directory)
    = (Ok (), stale_dialog (ext (confirming world_no_directory)),
       [EvShowBusy "Quick Review" "<br>Generating quicktime...";
        EvMakedirs "/proj/review"; EvClearBusy;
        EvLogError
          (message (Some "[Errno 13] Permission denied: /proj/review"));
        EvShowDialog "Quick Review"
          (ErrorWidget (summary "Quick Review")
             (message (Some "[Errno 13] Permission denied: /proj/review")))
          1])
  ∧ _confirm_widget
      (self (stale_dialog (ext (confirming world_no_directory))))
    = Some 0%nat
  ∧ ∃ e,
      _rejected (stale_dialog (ext (confirming world_no_directory)))
      = (Raise e, stale_dialog (ext (confirming world_no_directory)), [])
      ∧ exc_class e = TypeError.
Proof.
  assert (execute (confirming world_no_directory)
          = (Ok (), stale_dialog (ext (confirming world_no_directory)),
             [EvShowBusy "Quick Review" "<br>Generating quicktime...";
              EvMakedirs "/proj/review"; EvClearBusy;
              EvLogError
                (message (Some "[Errno 13] Permission denied: /proj/review"));
              EvShowDialog "Quick Review"
                (ErrorWidget (summary "Quick Review")
                   (message
                      (Some "[Errno 13] Permission denied: /proj/review")))
                1])) as H by reflexivity.
  split; [reflexivity|]. split; [exact H|].
  destruct (failed_execute_leaves_stale_dialog id
              (confirming world_no_directory)
              (stale_dialog (ext (confirming world_no_directory))) 0 _ _
              eq_refl H eq_refl eq_refl) as (Hw & _ & Hrej).
  split; [exact Hw|]. exact Hrej.
Defined.

(** The launcher on the two desktops. *)
Example _open_in_fs_linux :
  @_open_in_fs _ linux (ConfirmWidget__init__ movie) movie
    (ext (confirming world0))
  = (Ok (), ext (confirming world0),
     [EvSystem ("xdg-open " +:+ dq +:+ movie +:+ dq)])
  ∧ (@_open_in_fs _ linux (ConfirmWidget__init__ movie) movie world0).2
    = [EvSystem ("xdg-open " +:+ dq +:+ movie +:+ dq)]
  ∧ (∃ e, (@_open_in_fs _ linux (ConfirmWidget__init__ movie) movie
             world0).1.1 = Raise e ∧ exc_class e = AttributeError)
  ∧ @_open_in_fs _ other (ConfirmWidget__init__ movie) movie world0
    = (Raise (mkExc OtherException "Platform 'linux' is not supported."),
       world0, []).
Proof. repeat split; try reflexivity. eexists. split; reflexivity. Qed.

End Runs.
